(** * Farcaster ID card mini app

    A shallow embedding of the application module (the image pipeline
    [generatePngBlob] / [uploadToCloudinary], the casts step of
    [loadNeynarData], [handleShare]) and of the [Dashboard] component
    ([formatAddress], [changeCardBackground], the Recent Activity list and
    the share button), followed by the properties proved about them.

    JavaScript strings are modelled by [string], holding the UTF-8 bytes
    of the text.  The addresses and configuration names the program
    slices or compares are ASCII, so a character here is a UTF-16 code
    unit there; the bio, which is free text, is measured and cut in
    UTF-16 code units ([length16], [take16]).  Numbers are modelled by
    [Z]: the quantities involved are counts, indices and timestamps, and
    [+] rounds as binary64 does. *)

From Stdlib Require Import String Ascii NArith ZArith List Bool Lia QArith DecimalString.
Import ListNotations.
Close Scope Q_scope.
Open Scope string_scope.
Open Scope Z_scope.

(** ** JavaScript values and operators *)

Module Js.

(** Values of type [any]: parsed JSON bodies plus [undefined] and [NaN].
    An object is the list of its own properties, as [JSON.parse] yields
    them (keys are unique there).  [JsNum] holds the numbers that are
    integers, which counts, identifiers and timestamps are; a number
    with a fractional part has no value here. *)
#[warnings="-register-all"]
Inductive JsVal : Type :=
| JsUndefined
| JsNull
| JsBool (b : bool)
| JsNum (n : Z)
| JsNaN
| JsStr (s : string)
| JsArr (items : list JsVal)
| JsObj (fields : list (string * JsVal)).

(** [v == null], the test behind [??] and [?.]. *)
Definition nullish (v : JsVal) : bool :=
  match v with
  | JsUndefined | JsNull => true
  | _ => false
  end.

(** ToBoolean. *)
Definition truthy (v : JsVal) : bool :=
  match v with
  | JsUndefined | JsNull | JsNaN => false
  | JsBool b => b
  | JsNum n => negb (n =? 0)
  | JsStr s => negb (s =? "")%string
  | JsArr _ | JsObj _ => true
  end.

(** [a ?? b] and [a || b]; both operands are pure wherever they are used. *)
Definition coalesce (a b : JsVal) : JsVal := if nullish a then b else a.
Definition or (a b : JsVal) : JsVal := if truthy a then a else b.

Fixpoint assoc (k : string) (fields : list (string * JsVal)) : JsVal :=
  match fields with
  | [] => JsUndefined
  | (k', v) :: rest => if (k =? k')%string then v else assoc k rest
  end.

(** [v.k] for a [v] that is neither [null] nor [undefined].  None of the
    property names the program reads is a built-in property of strings,
    numbers, booleans or arrays, so those give [undefined]. *)
Definition prop (k : string) (v : JsVal) : JsVal :=
  match v with
  | JsObj fields => assoc k fields
  | _ => JsUndefined
  end.

(** [v?.k] *)
Definition opt_prop (k : string) (v : JsVal) : JsVal :=
  if nullish v then JsUndefined else prop k v.

(** Decimal rendering of an integral number, as in a template literal. *)
Definition string_of_Z (n : Z) : string := NilZero.string_of_int (Z.to_int n).

Fixpoint join (sep : string) (parts : list string) : string :=
  match parts with
  | [] => ""
  | [p] => p
  | p :: rest => p ++ sep ++ join sep rest
  end.

(** ToString.  An array prints its elements joined by commas, [null] and
    [undefined] elements as the empty string; a plain object prints as
    [[object Object]]. *)
Fixpoint toString (v : JsVal) : string :=
  match v with
  | JsUndefined => "undefined"
  | JsNull => "null"
  | JsBool true => "true"
  | JsBool false => "false"
  | JsNum n => string_of_Z n
  | JsNaN => "NaN"
  | JsStr s => s
  | JsArr items =>
      join "," (map (fun x => if nullish x then "" else toString x) items)
  | JsObj _ => "[object Object]"
  end.

(** ToNumber on primitives that are not strings; [None] is [NaN]. *)
Definition toNumber (v : JsVal) : option Z :=
  match v with
  | JsNum n => Some n
  | JsBool true => Some 1
  | JsBool false => Some 0
  | JsNull => Some 0
  | _ => None
  end.

Definition stringlike (v : JsVal) : bool :=
  match v with
  | JsStr _ | JsArr _ | JsObj _ => true
  | _ => false
  end.

(** The integer a binary64 number holds after rounding the integer [n] to
    the nearest one it can hold, ties to the even significand: [n] itself
    up to [2^53], a multiple of [2^(log2 |n| - 52)] beyond (and below
    [2^1024], where binary64 overflows). *)
Definition round_double (n : Z) : Z :=
  if Z.abs n <=? 2 ^ 53 then n
  else
    let ulp := 2 ^ (Z.log2 (Z.abs n) - 52) in
    let q := Z.abs n / ulp in
    let r := Z.abs n mod ulp in
    let q' := if 2 * r <? ulp then q
              else if ulp <? 2 * r then q + 1
              else if Z.even q then q else q + 1 in
    Z.sgn n * (q' * ulp).

(** [a + b]: concatenation as soon as one operand is (or converts to) a
    string, the addition of numbers otherwise. *)
Definition add (a b : JsVal) : JsVal :=
  if stringlike a || stringlike b then JsStr (toString a ++ toString b)
  else match toNumber a, toNumber b with
       | Some x, Some y => JsNum (round_double (x + y))
       | _, _ => JsNaN
       end.

(** A relative index of [slice], clamped into [0 .. len]. *)
Definition clamp_index (len k : Z) : Z :=
  if k <? 0 then Z.max (len + k) 0 else Z.min k len.

(** [s.slice(b, e)]; [e = None] is the one-argument form. *)
Definition slice (s : string) (b : Z) (e : option Z) : string :=
  let len := Z.of_nat (String.length s) in
  let from := clamp_index len b in
  let to := match e with
            | None => len
            | Some e => clamp_index len e
            end in
  substring (Z.to_nat from) (Z.to_nat (to - from)) s.

(** [s.split(sep)] for a one-character separator. *)
Fixpoint split (sep : ascii) (s : string) : list string :=
  match s with
  | EmptyString => [EmptyString]
  | String c rest =>
      if Ascii.eqb c sep then EmptyString :: split sep rest
      else match split sep rest with
           | piece :: pieces => String c piece :: pieces
           | [] => [String c EmptyString]
           end
  end.

(** [xs.indexOf(x)] on an array of strings: [-1] when absent. *)
Fixpoint indexOf_from (i : Z) (xs : list string) (x : string) : Z :=
  match xs with
  | [] => -1
  | y :: rest => if (y =? x)%string then i else indexOf_from (i + 1) rest x
  end.

Definition indexOf (xs : list string) (x : string) : Z := indexOf_from 0 xs x.

(** [xs[i]]: [None] is [undefined]. *)
Definition index {A : Type} (xs : list A) (i : Z) : option A :=
  if i <? 0 then None else nth_error xs (Z.to_nat i).

(** *** Strings in UTF-16 code units

    [s.length] and [s.substring(0, n)] count UTF-16 code units.  On the
    UTF-8 bytes of [s]: a continuation byte starts nothing, the lead byte
    of a four-byte sequence starts a character of two code units (a
    surrogate pair), any other byte a character of one. *)

Definition is_continuation (c : ascii) : bool :=
  match c with
  | Ascii _ _ _ _ _ _ b6 b7 => b7 && negb b6
  end.

Definition units_of (c : ascii) : nat :=
  match c with
  | Ascii _ _ _ _ b4 b5 b6 b7 =>
      if b7 && negb b6 then 0%nat
      else if b7 && b6 && b5 && b4 then 2%nat
      else 1%nat
  end.

(** [s.length] *)
Fixpoint length16 (s : string) : nat :=
  match s with
  | EmptyString => 0%nat
  | String c rest => (units_of c + length16 rest)%nat
  end.

(** The high surrogate of the character that the four-byte sequence
    [c0 c1 c2 ..] encodes, as the three bytes that stand for it alone:
    [0xD800 + v] where [v] is the code point minus [0x10000], shifted
    right by ten bits. *)
Definition high_surrogate (c0 c1 c2 : ascii) : string :=
  let v := ((N_of_ascii c0 mod 8) * 256 + (N_of_ascii c1 mod 64) * 4
            + (N_of_ascii c2 mod 64) / 16 - 64)%N in
  String (ascii_of_N 237)
    (String (ascii_of_N (160 + v / 64))
       (String (ascii_of_N (128 + v mod 64)) EmptyString)).

Definition byte_at (s : string) (i : nat) : ascii :=
  match String.get i s with
  | Some c => c
  | None => zero
  end.

(** [s.substring(0, n)]: the characters that fit in [n] code units; when
    a surrogate pair straddles the end, its high surrogate alone. *)
Fixpoint take16 (n : nat) (s : string) : string :=
  match s with
  | EmptyString => EmptyString
  | String c rest =>
      if is_continuation c then String c (take16 n rest)
      else if (units_of c <=? n)%nat then
        String c (take16 (n - units_of c) rest)
      else
        match n with
        | O => EmptyString
        | S _ => high_surrogate c (byte_at rest 0) (byte_at rest 1)
        end
  end.

Definition dquote : string := String (ascii_of_nat 34) EmptyString.
Definition newline : string := String (ascii_of_nat 10) EmptyString.

End Js.

(** ** Effects: a trace of calls, with exceptions *)

Module Effects.

(** What a [throw] or a rejected promise carries. *)
Definition JsError := string.

Inductive result (A : Type) : Type :=
| Ok (a : A)
| Throw (e : JsError).
Arguments Ok {A} a.
Arguments Throw {A} e.

Section Monad.
(** [E] is the type of observable events. *)
Context {E : Type}.

(** A computation yields a value or throws, and records what it did. *)
Definition M (A : Type) : Type := (result A * list E)%type.

Definition ret {A} (a : A) : M A := (Ok a, []).
Definition throw {A} (e : JsError) : M A := (Throw e, []).
Definition emit (ev : E) : M unit := (Ok tt, [ev]).

Definition bind {A B} (m : M A) (k : A -> M B) : M B :=
  match m with
  | (Ok a, t) => let (r, t') := k a in (r, (t ++ t')%list)
  | (Throw e, t) => (Throw e, t)
  end.

(** A call to the outside: the event, then whatever the callee did. *)
Definition call {A} (ev : E) (r : result A) : M A := (r, [ev]).

(** [try { body } catch (e) { handler e }] *)
Definition try_catch {A} (body : M A) (handler : JsError -> M A) : M A :=
  match body with
  | (Ok a, t) => (Ok a, t)
  | (Throw e, t) => let (r, t') := handler e in (r, (t ++ t')%list)
  end.

(** [try { body } finally { final }]; [final] does not return. *)
Definition try_finally {A} (body : M A) (final : M unit) : M A :=
  match body, final with
  | (r, t), (Ok _, t') => (r, (t ++ t')%list)
  | (_, t), (Throw e, t') => (Throw e, (t ++ t')%list)
  end.

(** [new Promise(executor)]: the executor runs at once; if it throws,
    the constructor does not, and the promise is rejected.  The promise
    is a value: its settled state. *)
Definition new_promise {A} (executor : M A) : M (result A) :=
  let (r, t) := executor in (Ok r, t).

(** What an [async] function turns a returned promise into: its own
    outcome.  [await p] inside a [try] is [bind (settle p)]. *)
Definition settle {A} (p : result A) : M A := (p, []).

Definition outcome {A} (m : M A) : result A := fst m.
Definition trace {A} (m : M A) : list E := snd m.
End Monad.

Arguments M E A : clear implicits.

Declare Scope js_scope.
Delimit Scope js_scope with js.
Notation "x <- m ;; k" := (bind m (fun x => k))
  (at level 61, m at next level, right associativity) : js_scope.
Notation "m ;;; k" := (bind m (fun _ => k))
  (at level 61, right associativity) : js_scope.

End Effects.

(** ** The application module *)

Module App.
Import Js Effects.
Local Open Scope js_scope.

(** *** The browser objects the pipeline handles *)

Inductive Element : Type := Element_id (id : nat).
Inductive Canvas : Type := Canvas_id (id : nat).
Inductive Blob : Type := Blob_id (id : nat).

Record Html2canvasOptions : Type := {
  h2c_backgroundColor : string;
  h2c_width : option Z;
  h2c_height : option Z;
  h2c_scale : Z;
  h2c_useCORS : bool;
  h2c_allowTaint : bool;
  h2c_logging : bool
}.

Record HtmlToImageOptions : Type := {
  hti_backgroundColor : string;
  hti_width : Z;
  hti_height : Z
}.

Record DomToImageOptions : Type := {
  dti_bgcolor : string;
  dti_width : Z;
  dti_height : Z;
  dti_quality : Z
}.

(** A [FormData] body: the appended fields, in order. *)
Definition FormData : Type := list (string * string).

Module Request.
Record t : Type := {
  url : string;
  method : option string;
  headers : list (string * string);
  body : option FormData
}.
End Request.

(** A [Response]: [json] and [text] are what reading the body gives. *)
Module Response.
Record t : Type := {
  ok : bool;
  status : Z;
  json : result JsVal;
  text : result string
}.
End Response.

(** [RecentCast]: the fields are whatever the API response held. *)
Module RecentCast.
Record t : Type := {
  hash : JsVal;
  text : JsVal;
  timestamp : JsVal;
  likes : JsVal;
  recasts : JsVal
}.
End RecentCast.

(** [DashboardUser].  [castsCount] and [reactionsCount] are assigned from
    the untyped casts response; an absent one is [JsUndefined]. *)
Module DashboardUser.
Record t : Type := {
  fid : Z;
  username : string;
  displayName : string;
  avatarUrl : option string;
  primaryAddress : option string;
  followersCount : option Z;
  followingCount : option Z;
  castsCount : JsVal;
  reactionsCount : JsVal;
  location : option string;
  bio : option string;
  neynarScore : option Q;
  dateOfBirth : option string
}.
End DashboardUser.

(** *** Observable events *)

Inductive LogLevel : Type := Log | Warn | Error.

(** [Console] keeps the message, the first argument of the call. *)
Inductive Event : Type :=
| Console (level : LogLevel) (message : string)
| Html2canvas (el : Element) (options : Html2canvasOptions)
| CanvasToBlob (c : Canvas) (type : string) (quality : Z)
| HtmlToImageToBlob (el : Element) (options : HtmlToImageOptions)
| DomToImageToBlob (el : Element) (options : DomToImageOptions)
| ReadAsDataURL (b : Blob)
| Fetch (request : Request.t)
| ResponseJson
| ResponseText
| ComposeCast (text : string) (embeds : list JsVal)
| Alert (message : string)
| SetSharing (value : bool)
| SetRecentCasts (value : option (list RecentCast.t))
| SetUser (update : option DashboardUser.t -> option DashboardUser.t).

Definition console (level : LogLevel) (message : string) : M Event unit :=
  emit (Console level message).

(** *** The environment: build-time configuration and the outside world *)

Record Env : Type := {
  MINIAPP_URL : string;
  NEYNAR_API_KEY : option string;
  CLOUDINARY_CLOUD_NAME : option string;
  CLOUDINARY_UPLOAD_PRESET : option string;
  PNG_METHOD : string;
  (** [element.querySelector(selector)] *)
  querySelector : Element -> string -> option Element;
  (** [html2canvas(element, options)] *)
  html2canvas : Element -> Html2canvasOptions -> result Canvas;
  (** [canvas.toBlob(callback, type, quality)]: throws, or calls back
      with a blob or with [null] *)
  toBlob : Canvas -> string -> Z -> result (option Blob);
  htmlToImage_toBlob : Element -> HtmlToImageOptions -> result (option Blob);
  domtoimage_toBlob : Element -> DomToImageOptions -> result (option Blob);
  (** a [FileReader] reading the blob as a data URL *)
  readAsDataURL : Blob -> result string;
  fetch : Request.t -> result Response.t;
  Date_now : Z;
  (** [sdk.actions.composeCast] *)
  composeCast : string -> list JsVal -> result unit;
  (** [Number.prototype.toFixed] and [parseFloat]; [None] is [NaN] *)
  toFixed : Q -> Z -> string;
  parseFloat : string -> option Q
}.

(** Truthiness of an [import.meta.env] entry: unset and empty are falsy. *)
Definition env_truthy (v : option string) : bool :=
  match v with
  | Some s => negb (s =? "")%string
  | None => false
  end.

Definition template_env (v : option string) : string :=
  match v with
  | Some s => s
  | None => "undefined"
  end.

Section WithEnv.
Variable env : Env.

(** *** [generatePngBlob] *)

Definition html2canvas_options : Html2canvasOptions :=
  {| h2c_backgroundColor := "#020617"; h2c_width := None; h2c_height := None;
     h2c_scale := 2; h2c_useCORS := true; h2c_allowTaint := false;
     h2c_logging := false |}.

Definition fallback_options : Html2canvasOptions :=
  {| h2c_backgroundColor := "#020617"; h2c_width := Some 424;
     h2c_height := Some 695; h2c_scale := 2; h2c_useCORS := true;
     h2c_allowTaint := false; h2c_logging := false |}.

Definition htmlToImage_options : HtmlToImageOptions :=
  {| hti_backgroundColor := "#020617"; hti_width := 424; hti_height := 695 |}.

Definition domtoimage_options : DomToImageOptions :=
  {| dti_bgcolor := "#020617"; dti_width := 424; dti_height := 695;
     dti_quality := 1 |}.

(** [new Promise((resolve) => { c.toBlob(resolve, 'image/png', 1.0); })] *)
Definition canvas_blob_promise (c : Canvas) : M Event (result (option Blob)) :=
  new_promise (call (CanvasToBlob c "image/png" 1) (toBlob env c "image/png" 1)).

(** The body of the [try]: each branch ends in a [return].  What it
    returns is the promise the function resolves with: [return await e]
    awaits inside the [try] and returns a value, [return new Promise(..)]
    leaves the [try] with the promise itself. *)
Definition generatePngBlob_try (element : Element)
  : M Event (result (option Blob)) :=
  if (PNG_METHOD env =? "html2canvas")%string then
    c <- call (Html2canvas element html2canvas_options)
              (html2canvas env element html2canvas_options) ;;
    canvas_blob_promise c
  else if (PNG_METHOD env =? "html-to-image")%string then
    b <- call (HtmlToImageToBlob element htmlToImage_options)
              (htmlToImage_toBlob env element htmlToImage_options) ;;
    ret (Ok b)
  else if (PNG_METHOD env =? "dom-to-image")%string then
    b <- call (DomToImageToBlob element domtoimage_options)
              (domtoimage_toBlob env element domtoimage_options) ;;
    ret (Ok b)
  else
    console Warn ("Unknown PNG method: " ++ PNG_METHOD env
                  ++ ", falling back to html2canvas") ;;;
    fallbackCanvas <- call (Html2canvas element fallback_options)
                           (html2canvas env element fallback_options) ;;
    canvas_blob_promise fallbackCanvas.

Definition generatePngBlob (element : Element) : M Event (option Blob) :=
  p <- try_catch (generatePngBlob_try element)
         (fun error =>
            console Error ("Error generating PNG with " ++ PNG_METHOD env ++ ":") ;;;
            ret (Ok None)) ;;
  settle p.

(** *** [uploadToCloudinary] *)

Definition upload_url : string :=
  "https://api.cloudinary.com/v1_1/" ++ template_env (CLOUDINARY_CLOUD_NAME env)
  ++ "/image/upload".

(** The multipart body built from the data URL the reader produced. *)
Definition upload_form (base64Data : string) : FormData :=
  let base64Image := match index (split "," base64Data) 1 with
                     | Some piece => piece
                     | None => "undefined"
                     end in
  [ ("file", "data:image/png;base64," ++ base64Image);
    ("upload_preset", template_env (CLOUDINARY_UPLOAD_PRESET env));
    ("public_id", "farcaster-id-card-share-" ++ string_of_Z (Date_now env));
    ("folder", "farcaster-cards") ].

Definition upload_request (base64Data : string) : Request.t :=
  {| Request.url := upload_url; Request.method := Some "POST";
     Request.headers := []; Request.body := Some (upload_form base64Data) |}.

(** [uploadData.secure_url]: a [TypeError] on [null]. *)
Definition secure_url (uploadData : JsVal) : result JsVal :=
  if nullish uploadData then Throw "TypeError"
  else Ok (prop "secure_url" uploadData).

Definition uploadToCloudinary (element : Element) : M Event JsVal :=
  if negb (env_truthy (CLOUDINARY_CLOUD_NAME env))
     || negb (env_truthy (CLOUDINARY_UPLOAD_PRESET env)) then
    console Warn "Cloudinary configuration missing" ;;;
    ret JsNull
  else
    try_catch
      (match querySelector env element ".fc-idcard" with
       | None =>
           console Warn "Card element not found" ;;;
           ret JsNull
       | Some cardElement =>
           blob <- generatePngBlob cardElement ;;
           match blob with
           | None => ret JsNull
           | Some blob =>
               base64Data <- call (ReadAsDataURL blob) (readAsDataURL env blob) ;;
               uploadResponse <- call (Fetch (upload_request base64Data))
                                      (fetch env (upload_request base64Data)) ;;
               if Response.ok uploadResponse then
                 uploadData <- call ResponseJson (Response.json uploadResponse) ;;
                 console Log "Cloudinary upload success:" ;;;
                 settle (secure_url uploadData)
               else
                 errorText <- call ResponseText (Response.text uploadResponse) ;;
                 console Error "Cloudinary upload failed:" ;;;
                 ret JsNull
           end
       end)
      (fun error =>
         console Error "Error uploading to Cloudinary:" ;;;
         ret JsNull).

(** *** The casts step of [loadNeynarData] *)

(** [(c: any) => ({ hash, text, timestamp, likes, recasts })], the callback
    of [map]: reading a property of [null] or [undefined] throws. *)
Definition processCast (c : JsVal) : result RecentCast.t :=
  if nullish c then Throw "TypeError"
  else
    let reactions := prop "reactions" c in
    let likes :=
      coalesce (coalesce (coalesce (coalesce
        (opt_prop "likes_count" reactions)
        (opt_prop "likes" reactions))
        (prop "like_count" c))
        (prop "likes" c))
        (JsNum 0) in
    let recasts :=
      coalesce (coalesce (coalesce (coalesce
        (opt_prop "recasts_count" reactions)
        (opt_prop "recasts" reactions))
        (prop "recast_count" c))
        (prop "recasts" c))
        (JsNum 0) in
    Ok {| RecentCast.hash := prop "hash" c;
          RecentCast.text := coalesce (prop "text" c) (JsStr "");
          RecentCast.timestamp := prop "timestamp" c;
          RecentCast.likes := likes;
          RecentCast.recasts := recasts |}.

(** [xs.map(f)] for an [f] that may throw: the first throw ends it. *)
Fixpoint map_result {A B : Type} (f : A -> result B) (xs : list A)
  : result (list B) :=
  match xs with
  | [] => Ok []
  | x :: rest =>
      match f x with
      | Throw e => Throw e
      | Ok y =>
          match map_result f rest with
          | Throw e => Throw e
          | Ok ys => Ok (y :: ys)
          end
      end
  end.

(** [castsData.result?.casts?.map(...) ?? []] *)
Definition processCasts (castsData : JsVal) : result (list RecentCast.t) :=
  if nullish castsData then Throw "TypeError"
  else
    match opt_prop "casts" (prop "result" castsData) with
    | JsUndefined | JsNull => Ok []
    | JsArr items => map_result processCast items
    | _ => Throw "TypeError"
    end.

(** [casts.reduce((sum, cast) => sum + (cast.likes || 0) + (cast.recasts || 0), 0)] *)
Definition totalReactions (casts : list RecentCast.t) : JsVal :=
  fold_left
    (fun sum cast =>
       add (add sum (or (RecentCast.likes cast) (JsNum 0)))
           (or (RecentCast.recasts cast) (JsNum 0)))
    casts (JsNum 0).

(** The updater handed to [setUser] once the casts are processed. *)
Definition castsUpdater (castsData : JsVal) (casts : list RecentCast.t)
  (prev : option DashboardUser.t) : option DashboardUser.t :=
  match prev with
  | None => None
  | Some prev =>
      Some {| DashboardUser.fid := DashboardUser.fid prev;
              DashboardUser.username := DashboardUser.username prev;
              DashboardUser.displayName := DashboardUser.displayName prev;
              DashboardUser.avatarUrl := DashboardUser.avatarUrl prev;
              DashboardUser.primaryAddress := DashboardUser.primaryAddress prev;
              DashboardUser.followersCount := DashboardUser.followersCount prev;
              DashboardUser.followingCount := DashboardUser.followingCount prev;
              DashboardUser.castsCount :=
                coalesce (coalesce (opt_prop "total" (prop "result" castsData))
                                   (DashboardUser.castsCount prev))
                         (JsNum (Z.of_nat (length casts)));
              DashboardUser.reactionsCount := totalReactions casts;
              DashboardUser.location := DashboardUser.location prev;
              DashboardUser.bio := DashboardUser.bio prev;
              DashboardUser.neynarScore := DashboardUser.neynarScore prev;
              DashboardUser.dateOfBirth := DashboardUser.dateOfBirth prev |}
  end.

Definition casts_request (apiKey : string) (fid : Z) : Request.t :=
  {| Request.url := "https://api.neynar.com/v2/farcaster/casts?fid="
                    ++ string_of_Z fid ++ "&limit=5&author_fid=" ++ string_of_Z fid;
     Request.method := None;
     Request.headers := [("x-api-key", apiKey); ("accept", "application/json")];
     Request.body := None |}.

(** Step 2 of [loadNeynarData], "Recent casts": what the function does
    after the profile step, given the API key that step 0 found set.
    Nothing here is inside a [try]: a throw rejects [loadNeynarData]. *)
Definition loadNeynarData_casts (apiKey : string) (fid : Z) : M Event unit :=
  castsRes <- call (Fetch (casts_request apiKey fid))
                   (fetch env (casts_request apiKey fid)) ;;
  if negb (Response.ok castsRes) then
    errorText <- call ResponseText (Response.text castsRes) ;;
    console Warn "Failed to fetch Neynar casts" ;;;
    emit (SetRecentCasts (Some []))
  else
    castsData <- call ResponseJson (Response.json castsRes) ;;
    console Log "Casts API response:" ;;;
    casts <- settle (processCasts castsData) ;;
    console Log "Processed casts with real reactions:" ;;;
    emit (SetRecentCasts (Some casts)) ;;;
    emit (SetUser (castsUpdater castsData casts)).

(** *** [handleShare] *)

Definition badges (followers : Z) (score : string) : list string :=
  (if 1000 <=? followers then ["ðŸŒŸ Influencer"]
   else if 100 <=? followers then ["â­ Rising Star"]
   else if 10 <=? followers then ["âœ¨ Active Member"]
   else [])
  ++
  (match parseFloat env score with
   | Some x =>
       if Qle_bool (85 # 1) x then ["ðŸ† Top Scorer"]
       else if Qle_bool (70 # 1) x then ["ðŸŽ¯ High Achiever"]
       else []
   | None => []
   end).

(** The text of the cast. *)
Definition shareText (user : option DashboardUser.t) : string :=
  match user with
  | None => "Check out this Farcaster ID Card generator! ðŸªª"
  | Some user =>
      let score := match DashboardUser.neynarScore user with
                   | Some x => toFixed env x 2
                   | None => "N/A"
                   end in
      let followers := match DashboardUser.followersCount user with
                       | Some n => n
                       | None => 0
                       end in
      let following := match DashboardUser.followingCount user with
                       | Some n => n
                       | None => 0
                       end in
      let shareText :=
        "ðŸš€ Farcaster ID Check! check my digital identity card ðŸªªâœ¨" ++ newline ++ newline in
      let shareText :=
        shareText ++ "ðŸ“Š Stats: Neynar Score " ++ score ++ " | FID #"
        ++ string_of_Z (DashboardUser.fid user) ++ newline in
      let shareText :=
        shareText ++ "ðŸ‘¥ " ++ string_of_Z followers ++ " followers | "
        ++ string_of_Z following ++ " following" ++ newline in
      let shareText :=
        shareText ++ "ðŸ·ï¸ @" ++ DashboardUser.username user in
      let badges := badges followers score in
      let shareText :=
        match badges with
        | [] => shareText
        | _ => shareText ++ newline ++ "ðŸŽ–ï¸ " ++ join " | " badges
        end in
      let shareText :=
        match DashboardUser.location user with
        | Some location =>
            if (location =? "")%string then shareText
            else shareText ++ " | ðŸ“ " ++ location
        | None => shareText
        end in
      let shareText :=
        match DashboardUser.bio user with
        | Some bio =>
            if (bio =? "")%string then shareText
            else
              let truncatedBio :=
                if (100 <? length16 bio)%nat
                then take16 97 bio ++ "..."
                else bio in
              shareText ++ newline ++ newline ++ dquote ++ truncatedBio ++ dquote
        | None => shareText
        end in
      shareText ++ newline ++ newline
      ++ "Check out your own Farcaster ID card! ðŸª„ #Farcaster #Web3 #Identity"
  end.

(** [handleShare], closed over what the render that created it saw:
    the [sharing] flag, the [user] and [cardRef.current]. *)
Definition handleShare (sharing : bool) (user : option DashboardUser.t)
  (cardRef : option Element) : M Event unit :=
  if sharing then ret tt
  else
    try_finally
      (try_catch
         (emit (SetSharing true) ;;;
          embeds <-
            match cardRef with
            | Some current =>
                try_catch
                  (console Log "Generating card image for share..." ;;;
                   cloudinaryUrl <- uploadToCloudinary current ;;
                   if truthy cloudinaryUrl then
                     console Log "Card image uploaded to Cloudinary successfully:" ;;;
                     ret match user with
                         | Some user =>
                             [cloudinaryUrl; JsStr (MINIAPP_URL env);
                              JsStr ("@" ++ DashboardUser.username user)]
                         | None => [cloudinaryUrl; JsStr (MINIAPP_URL env)]
                         end
                   else
                     console Warn "Failed to upload card image to Cloudinary" ;;;
                     ret [JsStr (MINIAPP_URL env)])
                  (fun imageError =>
                     console Error "Error generating/uploading card image:" ;;;
                     ret [JsStr (MINIAPP_URL env)])
            | None => ret [JsStr (MINIAPP_URL env)]
            end ;;
          let text := shareText user in
          console Log "Composing cast with:" ;;;
          call (ComposeCast text embeds) (composeCast env text embeds) ;;;
          console Log "Cast shared successfully!" ;;;
          emit (Alert "Cast shared successfully! ðŸŽ‰"))
         (fun e =>
            console Error "Failed to share cast:" ;;;
            emit (Alert "Failed to share cast. Please try again.")))
      (emit (SetSharing false)).

End WithEnv.

End App.

(** ** The [Dashboard] component *)

Module Dashboard.
Import Js Effects App.

Definition formatAddress (address : option string) : string :=
  match address with
  | None => "Not connected"
  | Some address =>
      if (address =? "")%string then "Not connected"
      else slice address 0 (Some 6) ++ "..." ++ slice address (-4) None
  end.

(** *** The card background *)

Definition backgroundOptions : list string :=
  [ "linear-gradient(135deg, #667eea 0%, #764ba2 100%)";
    "linear-gradient(135deg, #f093fb 0%, #f5576c 100%)";
    "linear-gradient(135deg, #4facfe 0%, #00f2fe 100%)";
    "linear-gradient(135deg, #43e97b 0%, #38f9d7 100%)";
    "linear-gradient(135deg, #fa709a 0%, #fee140 100%)";
    "#020617" ].

(** The initial [cardBackground] state. *)
Definition initialCardBackground : string :=
  "linear-gradient(135deg, #667eea 0%, #764ba2 100%)".

(** [changeCardBackground]: the value handed to [setCardBackground], from
    the current [cardBackground]; [None] is [undefined], what indexing
    past the end of the array gives. *)
Definition changeCardBackground (cardBackground : string) : option string :=
  let currentIndex := indexOf backgroundOptions cardBackground in
  let nextIndex := Z.rem (currentIndex + 1) (Z.of_nat (length backgroundOptions)) in
  index backgroundOptions nextIndex.

(** [n] clicks on "Change Background". *)
Fixpoint changeCardBackground_times (n : nat) (cardBackground : string)
  : option string :=
  match n with
  | O => Some cardBackground
  | S n' =>
      match changeCardBackground cardBackground with
      | Some next => changeCardBackground_times n' next
      | None => None
      end
  end.

(** *** Recent Activity *)

(** One [fc-activity-item]: its React key, the child of
    [fc-activity-text] and the children of [fc-activity-meta]. *)
Module ActivityItem.
Record t : Type := {
  key : option JsVal;
  text : JsVal;
  meta : list JsVal
}.
End ActivityItem.

Section Render.
(** [new Date(iso).toLocaleString(undefined, { month: "short", day: "numeric" })] *)
Variable toLocaleString : JsVal -> string.

Definition formatTimestamp (iso : JsVal) : string :=
  if negb (truthy iso) then "" else toLocaleString iso.

Definition loadingItem : ActivityItem.t :=
  {| ActivityItem.key := None;
     ActivityItem.text := JsStr "Loading your recent casts...";
     ActivityItem.meta := [JsStr "Please wait"] |}.

Definition castItem (cast : RecentCast.t) : ActivityItem.t :=
  {| ActivityItem.key := Some (RecentCast.hash cast);
     ActivityItem.text := or (RecentCast.text cast) (JsStr "(no text)");
     ActivityItem.meta :=
       [ JsStr (formatTimestamp (RecentCast.timestamp cast));
         JsStr " Â· ";
         RecentCast.likes cast;
         JsStr " likes Â·";
         JsStr " ";
         RecentCast.recasts cast;
         JsStr " recasts" ] |}.

Definition placeholderItems : list ActivityItem.t :=
  [ {| ActivityItem.key := None;
       ActivityItem.text := JsStr "No recent casts found. Start casting on Farcaster to see your activity here! ğŸš€";
       ActivityItem.meta := [JsStr "Your casts will appear here"] |};
    {| ActivityItem.key := None;
       ActivityItem.text := JsStr (dquote ++ "Sample: Just discovered this awesome Farcaster dashboard mini app! ğŸªªâœ¨" ++ dquote);
       ActivityItem.meta := [JsStr "Sample Â· 42 likes Â· 8 recasts"] |} ].

(** [recentCasts && recentCasts.length > 0] *)
Definition hasRealActivity (recentCasts : option (list RecentCast.t)) : bool :=
  match recentCasts with
  | Some casts => (0 <? length casts)%nat
  | None => false
  end.

(** [recentCasts === undefined] *)
Definition isLoadingCasts (recentCasts : option (list RecentCast.t)) : bool :=
  match recentCasts with
  | Some _ => false
  | None => true
  end.

(** The children of [fc-activity-list]. *)
Definition activityList (recentCasts : option (list RecentCast.t))
  : list ActivityItem.t :=
  if isLoadingCasts recentCasts then [loadingItem]
  else if hasRealActivity recentCasts then
    match recentCasts with
    | Some casts => map castItem casts
    | None => []
    end
  else placeholderItems.

End Render.

(** *** The share button *)

Module Button.
Record t : Type := {
  disabled : bool;
  icon : string;
  label : string
}.
End Button.



End Dashboard.

(** ** The share operations in flight

    [handleShare] is created by a render and reads the [sharing] flag that
    render saw.  [setSharing] changes the state; the handler in use sees
    the change only once the component has rendered again.  An invocation
    that gets past the guard runs until its [finally]. *)

Module ShareLifecycle.
Import Js Effects App.

Record t : Type := {
  (** the state [setSharing] last set *)
  sharing : bool;
  (** the flag the handler of the last render closed over *)
  rendered : bool;
  in_flight : nat
}.

Definition initial : t :=
  {| sharing := false; rendered := false; in_flight := 0 |}.

(** Whether this invocation gets past the guard. *)
Definition starts (env : Env) (s : t) (user : option DashboardUser.t)
  (cardRef : option Element) : bool :=
  match trace (handleShare env (rendered s) user cardRef) with
  | [] => false
  | _ :: _ => true
  end.

Inductive step (env : Env) : t -> t -> Prop :=
| render (s : t) :
    step env s
      {| sharing := sharing s; rendered := sharing s;
         in_flight := in_flight s |}
| invoke (s : t) (user : option DashboardUser.t) (cardRef : option Element) :
    step env s
      (if starts env s user cardRef
       then {| sharing := true; rendered := rendered s;
               in_flight := S (in_flight s) |}
       else s)
| finish (s : t) (n : nat) :
    in_flight s = S n ->
    step env s {| sharing := false; rendered := rendered s; in_flight := n |}.

Inductive reachable (env : Env) : t -> Prop :=
| reachable_initial : reachable env initial
| reachable_step (s s' : t) :
    reachable env s -> step env s s' -> reachable env s'.

End ShareLifecycle.

(** ** The statements of the specification, in its own words *)

Module Spec.
Import Js Effects App.

(** The first candidate that is neither [null] nor [undefined]. *)
Fixpoint first_non_null (candidates : list JsVal) (default : JsVal) : JsVal :=
  match candidates with
  | [] => default
  | v :: rest => if nullish v then first_non_null rest default else v
  end.

(** The response field at a path, absent ([undefined]) when a step of the
    path is absent. *)
Definition field (path : list string) (c : JsVal) : JsVal :=
  fold_left (fun v k => opt_prop k v) path c.

Definition likes_of (c : JsVal) : JsVal :=
  first_non_null
    [ field ["reactions"; "likes_count"] c; field ["reactions"; "likes"] c;
      field ["like_count"] c; field ["likes"] c ]
    (JsNum 0).

Definition recasts_of (c : JsVal) : JsVal :=
  first_non_null
    [ field ["reactions"; "recasts_count"] c; field ["reactions"; "recasts"] c;
      field ["recast_count"] c; field ["recasts"] c ]
    (JsNum 0).

(** The casts a response carries. *)
Definition response_casts (castsData : JsVal) : list JsVal :=
  match field ["result"; "casts"] castsData with
  | JsArr items => items
  | _ => []
  end.

(** A reaction count as a number; a missing one counts for [0]. *)
Definition count (v : JsVal) : option Z :=
  match v with
  | JsNum n => Some n
  | JsUndefined | JsNull => Some 0
  | _ => None
  end.

Definition counted (cast : RecentCast.t) : Prop :=
  count (RecentCast.likes cast) <> None /\ count (RecentCast.recasts cast) <> None.

Definition count_or_zero (v : JsVal) : Z :=
  match count v with
  | Some n => n
  | None => 0
  end.

(** The sum over the casts of likes plus recasts. *)
Fixpoint reactions_sum (casts : list RecentCast.t) : Z :=
  match casts with
  | [] => 0
  | cast :: rest =>
      count_or_zero (RecentCast.likes cast)
      + count_or_zero (RecentCast.recasts cast)
      + reactions_sum rest
  end.

(** What the absolute values of the likes and recasts add up to. *)
Fixpoint reactions_magnitude (casts : list RecentCast.t) : Z :=
  match casts with
  | [] => 0
  | cast :: rest =>
      Z.abs (count_or_zero (RecentCast.likes cast))
      + Z.abs (count_or_zero (RecentCast.recasts cast))
      + reactions_magnitude rest
  end.

(** The first [n] and the last [n] characters of a string (all of it when
    it is shorter). *)
Definition first_chars (n : nat) (s : string) : string :=
  string_of_list_ascii (firstn n (list_ascii_of_string s)).

Definition last_chars (n : nat) (s : string) : string :=
  string_of_list_ascii
    (skipn (String.length s - n) (list_ascii_of_string s)).

Section Pipeline.
Variable env : Env.

Definition configured : bool :=
  env_truthy (CLOUDINARY_CLOUD_NAME env)
  && env_truthy (CLOUDINARY_UPLOAD_PRESET env).

(** Rasterizing with html2canvas and converting the canvas to a PNG blob;
    an error of html2canvas is logged and gives [null]. *)
Definition via_html2canvas (element : Element) (options : Html2canvasOptions)
  : M Event (option Blob) :=
  match html2canvas env element options with
  | Ok c =>
      (toBlob env c "image/png" 1,
       [Html2canvas element options; CanvasToBlob c "image/png" 1])
  | Throw _ =>
      (Ok None,
       [Html2canvas element options;
        Console Error ("Error generating PNG with " ++ PNG_METHOD env ++ ":")])
  end.

(** One call of a library's own [toBlob]; an error is logged and gives
    [null]. *)
Definition via_library (ev : Event) (r : result (option Blob))
  : M Event (option Blob) :=
  match r with
  | Ok b => (Ok b, [ev])
  | Throw _ =>
      (Ok None,
       [ev; Console Error ("Error generating PNG with " ++ PNG_METHOD env ++ ":")])
  end.

(** The stages of the upload pipeline, each defined when it and the
    stages before it succeed. *)
Definition card (element : Element) : option Element :=
  querySelector env element ".fc-idcard".

Definition rasterized (element : Element) : option Blob :=
  match card element with
  | Some cardElement =>
      match outcome (generatePngBlob env cardElement) with
      | Ok (Some b) => Some b
      | _ => None
      end
  | None => None
  end.

Definition encoded (element : Element) : option string :=
  match rasterized element with
  | Some b =>
      match readAsDataURL env b with
      | Ok base64Data => Some base64Data
      | Throw _ => None
      end
  | None => None
  end.

(** The upload request resolved with an [ok] response. *)
Definition uploaded (element : Element) : option Response.t :=
  match encoded element with
  | Some base64Data =>
      match fetch env (upload_request env base64Data) with
      | Ok r => if Response.ok r then Some r else None
      | Throw _ => None
      end
  | None => None
  end.

(** The body of that response was read as JSON, and is not [null]. *)
Definition upload_data (element : Element) : option JsVal :=
  match uploaded element with
  | Some r =>
      match Response.json r with
      | Ok uploadData => if nullish uploadData then None else Some uploadData
      | Throw _ => None
      end
  | None => None
  end.

(** "The function returns the [secure_url] of the upload response." *)
Definition returns_secure_url (element : Element) : Prop :=
  exists r uploadData,
    uploaded element = Some r /\
    Response.json r = Ok uploadData /\
    outcome (uploadToCloudinary env element) = Ok (prop "secure_url" uploadData).

End Pipeline.

(** The dispatch on [PNG_METHOD]. *)
Definition dispatch (env : Env) (element : Element) : M Event (option Blob) :=
  if (PNG_METHOD env =? "html2canvas")%string then
      via_html2canvas env element html2canvas_options
    else if (PNG_METHOD env =? "html-to-image")%string then
      via_library env (HtmlToImageToBlob element htmlToImage_options)
        (htmlToImage_toBlob env element htmlToImage_options)
    else if (PNG_METHOD env =? "dom-to-image")%string then
      via_library env (DomToImageToBlob element domtoimage_options)
        (domtoimage_toBlob env element domtoimage_options)
    else
      bind (console Warn ("Unknown PNG method: " ++ PNG_METHOD env
                          ++ ", falling back to html2canvas"))
           (fun _ => via_html2canvas env element fallback_options).

Definition is_fetch (ev : Event) : bool :=
  match ev with
  | Fetch _ => true
  | _ => false
  end.

(** The calls that make up the stages of the pipeline. *)
Definition is_stage_call (ev : Event) : bool :=
  match ev with
  | Html2canvas _ _ | CanvasToBlob _ _ _ | HtmlToImageToBlob _ _
  | DomToImageToBlob _ _ | ReadAsDataURL _ | Fetch _ => true
  | _ => false
  end.

Definition same_stage (a b : Event) : bool :=
  match a, b with
  | Html2canvas _ _, Html2canvas _ _
  | CanvasToBlob _ _ _, CanvasToBlob _ _ _
  | HtmlToImageToBlob _ _, HtmlToImageToBlob _ _
  | DomToImageToBlob _ _, DomToImageToBlob _ _
  | ReadAsDataURL _, ReadAsDataURL _
  | Fetch _, Fetch _ => true
  | _, _ => false
  end.

(** No stage is called twice in a trace. *)
Fixpoint each_stage_once (t : list Event) : bool :=
  match t with
  | [] => true
  | ev :: rest =>
      negb (is_stage_call ev && existsb (same_stage ev) rest)
      && each_stage_once rest
  end.

(** The events that follow the first request of a trace. *)
Fixpoint after_fetch (t : list Event) : list Event :=
  match t with
  | [] => []
  | Fetch _ :: rest => rest
  | _ :: rest => after_fetch rest
  end.

End Spec.

(** ** Concrete environments *)

Module Scenarios.
Import Js Effects App.

Definition root : Element := Element_id 0.
Definition cardElement : Element := Element_id 1.
Definition rendered : Canvas := Canvas_id 0.
Definition png : Blob := Blob_id 0.

(** A browser in which the card is found and every library call that is
    not a parameter succeeds. *)
Definition browser (method : string) (blobOfCanvas : result (option Blob))
  (response : result Response.t) : Env :=
  {| MINIAPP_URL := "https://farcaster-id-one.vercel.app";
     NEYNAR_API_KEY := Some "neynar-key";
     CLOUDINARY_CLOUD_NAME := Some "demo";
     CLOUDINARY_UPLOAD_PRESET := Some "cards";
     PNG_METHOD := method;
     querySelector := fun _ _ => Some cardElement;
     html2canvas := fun _ _ => Ok rendered;
     toBlob := fun _ _ _ => blobOfCanvas;
     htmlToImage_toBlob := fun _ _ => Ok (Some png);
     domtoimage_toBlob := fun _ _ => Ok (Some png);
     readAsDataURL := fun _ => Ok "data:image/png;base64,iVBORw0KGgo=";
     fetch := fun _ => response;
     Date_now := 1700000000000;
     composeCast := fun _ _ => Ok tt;
     toFixed := fun _ _ => "0.90";
     parseFloat := fun _ => Some (9 # 10)%Q |}.

Definition uploadedBody : JsVal :=
  JsObj [ ("public_id", JsStr "farcaster-cards/farcaster-id-card-share-1700000000000");
          ("secure_url", JsStr "https://res.cloudinary.com/demo/image/upload/card.png") ].

Definition accepted : Response.t :=
  {| Response.ok := true; Response.status := 200;
     Response.json := Ok uploadedBody; Response.text := Ok "{}" |}.

(** A 200 response whose body is not JSON. *)
Definition unreadable : Response.t :=
  {| Response.ok := true; Response.status := 200;
     Response.json := Throw "SyntaxError";
     Response.text := Ok "<html>Sign in to the network</html>" |}.

Definition refused : Response.t :=
  {| Response.ok := false; Response.status := 400;
     Response.json := Ok (JsObj [("error", JsObj [("message", JsStr "Upload preset not found")])]);
     Response.text := Ok "Upload preset not found" |}.

Definition happy : Env := browser "html2canvas" (Ok (Some png)) (Ok accepted).
Definition unreadableBody : Env := browser "html2canvas" (Ok (Some png)) (Ok unreadable).
Definition refusedUpload : Env := browser "html2canvas" (Ok (Some png)) (Ok refused).

(** The canvas html2canvas produced refuses to be exported. *)
Definition taintedCanvas : Env :=
  browser "html2canvas" (Throw "SecurityError") (Ok accepted).

(** A casts response in three of the shapes the API has had. *)
Definition castsBody : JsVal :=
  JsObj [ ("result", JsObj [
    ("casts", JsArr [
       JsObj [ ("hash", JsStr "0xa1"); ("text", JsStr "gm");
               ("timestamp", JsStr "2024-05-01T08:00:00Z");
               ("reactions", JsObj [("likes_count", JsNum 5); ("recasts_count", JsNum 2)]) ];
       JsObj [ ("hash", JsStr "0xb2"); ("text", JsNull);
               ("timestamp", JsStr "2024-05-02T08:00:00Z");
               ("reactions", JsObj [("likes_count", JsNull)]);
               ("like_count", JsNum 7); ("recasts", JsNum 1) ];
       JsObj [ ("hash", JsStr "0xc3");
               ("timestamp", JsStr "2024-05-03T08:00:00Z") ] ]);
    ("total", JsNum 41) ]) ].

Definition castsResponse : Response.t :=
  {| Response.ok := true; Response.status := 200;
     Response.json := Ok castsBody; Response.text := Ok "" |}.

Definition neynar : Env := browser "html2canvas" (Ok (Some png)) (Ok castsResponse).

Definition alice : DashboardUser.t :=
  {| DashboardUser.fid := 12345;
     DashboardUser.username := "testuser";
     DashboardUser.displayName := "Test User";
     DashboardUser.avatarUrl := Some "https://example.com/avatar.png";
     DashboardUser.primaryAddress := Some "0x1234567890abcdef1234567890abcdef12345678";
     DashboardUser.followersCount := Some 120;
     DashboardUser.followingCount := Some 80;
     DashboardUser.castsCount := JsUndefined;
     DashboardUser.reactionsCount := JsNum 999;
     DashboardUser.location := None;
     DashboardUser.bio := Some "building";
     DashboardUser.neynarScore := Some (9 # 10)%Q;
     DashboardUser.dateOfBirth := None |}.

End Scenarios.

(** ** The theme of the dashboard *)

Module Theme.
Import Js.

(** [s.startsWith(sub)] and [s.includes(sub)] *)
Fixpoint startsWith (s sub : string) : bool :=
  match sub, s with
  | EmptyString, _ => true
  | String a sub', String b s' => Ascii.eqb a b && startsWith s' sub'
  | String _ _, EmptyString => false
  end.

Fixpoint includes (s sub : string) : bool :=
  startsWith s sub
  || match s with
     | EmptyString => false
     | String _ rest => includes rest sub
     end.

Record t : Type := {
  primary : string;
  secondary : string;
  accent : string
}.

Definition defaultTheme : t :=
  {| primary := "#6366f1"; secondary := "#8b5cf6"; accent := "#a78bfa" |}.

Definition getThemeColors (bg : string) : t :=
  if includes bg "#667eea" then
    {| primary := "#667eea"; secondary := "#764ba2"; accent := "#9b7ce8" |}
  else if includes bg "#f093fb" then
    {| primary := "#f093fb"; secondary := "#f5576c"; accent := "#ff7eb3" |}
  else if includes bg "#4facfe" then
    {| primary := "#4facfe"; secondary := "#00f2fe"; accent := "#6fd4ff" |}
  else if includes bg "#43e97b" then
    {| primary := "#43e97b"; secondary := "#38f9d7"; accent := "#6ff7b3" |}
  else if includes bg "#fa709a" then
    {| primary := "#fa709a"; secondary := "#fee140"; accent := "#ffb366" |}
  else defaultTheme.

End Theme.

(** ** The floating elements of the stat cards *)

Module Floating.
Import Js.

(** What [handleStatClick] builds from [Date.now()] and [Math.random()]. *)
Record t : Type := {
  id : Z;
  x : Q;
  y : Q;
  emoji : string
}.

(** [prev => [...prev, newElement]] *)
Definition add (newElement : t) (prev : list t) : list t :=
  (prev ++ [newElement])%list.

(** [prev => prev.filter(el => el.id !== newElement.id)], what the timer
    of that click runs two seconds later. *)
Definition remove (newElement : t) (prev : list t) : list t :=
  filter (fun el => negb (id el =? id newElement)) prev.

End Floating.

(** ** The profile step of [loadNeynarData]

    The user of the API response is untyped, and what the updater builds
    from it is a plain object: the user is modelled here by the list of
    its properties. *)

Module Profile.
Import Js.

Definition UserObject : Type := list (string * JsVal).

(** [{ ...o, k: v }] *)
Fixpoint set (k : string) (v : JsVal) (o : UserObject) : UserObject :=
  match o with
  | [] => [(k, v)]
  | (k', v') :: rest =>
      if (k =? k')%string then (k, v) :: rest else (k', v') :: set k v rest
  end.

(** [a && b] *)
Definition and (a b : JsVal) : JsVal := if truthy a then b else a.

(** [v?.[0]] *)
Definition opt_first (v : JsVal) : JsVal :=
  match v with
  | JsArr (first :: _) => first
  | JsStr (String c _) => JsStr (String c EmptyString)
  | JsObj fields => assoc "0" fields
  | _ => JsUndefined
  end.

(** [typeof v === "number"] *)
Definition is_number (v : JsVal) : bool :=
  match v with
  | JsNum _ | JsNaN => true
  | _ => false
  end.

Definition location (u : JsVal) : JsVal :=
  let locAddress := opt_prop "address" (opt_prop "location" (prop "profile" u)) in
  if truthy (and (opt_prop "city" locAddress) (opt_prop "country" locAddress))
  then JsStr (toString (prop "city" locAddress) ++ ", "
              ++ toString (prop "country" locAddress))
  else or (opt_prop "country" locAddress) JsUndefined.

Definition primaryEth (u : JsVal) : JsVal :=
  let verified := prop "verified_addresses" u in
  or (or (opt_prop "eth_address" (opt_prop "primary" verified))
         (opt_first (opt_prop "eth_addresses" verified)))
     (prop "custody_address" u).

(** [prev ?? { fid, username: ..., displayName: ..., avatarUrl: undefined, ... }] *)
Definition base (fid : Z) (u : JsVal) (prev : option UserObject) : UserObject :=
  match prev with
  | Some user => user
  | None =>
      [ ("fid", JsNum fid);
        ("username",
         coalesce (prop "username" u) (JsStr ("user-" ++ string_of_Z fid)));
        ("displayName",
         coalesce (coalesce (prop "display_name" u) (prop "username" u))
                  (JsStr ("FID " ++ string_of_Z fid)));
        ("avatarUrl", JsUndefined);
        ("followersCount", JsUndefined);
        ("followingCount", JsUndefined);
        ("bio", JsUndefined);
        ("location", JsUndefined);
        ("primaryAddress", JsUndefined);
        ("neynarScore", JsUndefined) ]
  end.

(** The updater handed to [setUser] for a user [u] of the response. *)
Definition updater (fid : Z) (u : JsVal) (prev : option UserObject)
  : UserObject :=
  let base := base fid u prev in
  let score := opt_prop "neynar_user_score" (prop "experimental" u) in
  set "neynarScore"
      (if is_number score then prop "neynar_user_score" (prop "experimental" u)
       else assoc "neynarScore" base)
  (set "primaryAddress" (coalesce (primaryEth u) (assoc "primaryAddress" base))
  (set "location" (coalesce (location u) (assoc "location" base))
  (set "bio"
       (coalesce (opt_prop "text" (opt_prop "bio" (prop "profile" u)))
                 (assoc "bio" base))
  (set "followingCount"
       (coalesce (prop "following_count" u) (assoc "followingCount" base))
  (set "followersCount"
       (coalesce (prop "follower_count" u) (assoc "followersCount" base))
  (set "avatarUrl" (coalesce (prop "pfp_url" u) (assoc "avatarUrl" base))
       base)))))).

End Profile.

(** ** The handlers of the application component *)

Module Handlers.
Import Js Effects App.
Local Open Scope js_scope.

(** The events of [App], and those of the handlers modelled here. *)
Inductive Event : Type :=
| Base (ev : App.Event)
| SetUserObject (update : option Profile.UserObject -> Profile.UserObject)
| SetUserTo (user : Profile.UserObject)
| SetError (message : string)
| SetLoading (value : bool)
| WriteText (text : JsVal)
| AppendMeta (name content : string).

(** A computation of [App], run here. *)
Definition lift {A : Type} (m : M App.Event A) : M Event A :=
  (fst m, map Base (snd m)).

Definition console (level : LogLevel) (message : string) : M Event unit :=
  emit (Base (Console level message)).

Section WithEnv.
Variable env : Env.
(** [navigator.clipboard.writeText] *)
Variable writeText : JsVal -> result unit.
(** [JSON.stringify] *)
Variable stringify : JsVal -> string.

(** *** [loadNeynarData] *)

Definition user_request (apiKey : string) (fid : Z) : Request.t :=
  {| Request.url := "https://api.neynar.com/v2/farcaster/user/bulk?fids="
                    ++ string_of_Z fid ++ "&viewer_fid=" ++ string_of_Z fid;
     Request.method := None;
     Request.headers := [("x-api-key", apiKey); ("accept", "application/json")];
     Request.body := None |}.

(** [data.users?.[0]] *)
Definition first_user (data : JsVal) : result JsVal :=
  if nullish data then Throw "TypeError"
  else Ok (Profile.opt_first (prop "users" data)).

(** Step 1, "User profile + stats". *)
Definition loadNeynarData_profile (apiKey : string) (fid : Z) : M Event unit :=
  userRes <- call (Base (Fetch (user_request apiKey fid)))
                  (fetch env (user_request apiKey fid)) ;;
  if negb (Response.ok userRes) then
    errorText <- call (Base ResponseText) (Response.text userRes) ;;
    console Warn "Failed to fetch Neynar user data"
  else
    data <- call (Base ResponseJson) (Response.json userRes) ;;
    u <- settle (first_user data) ;;
    if truthy u then
      console Log "Neynar user data:" ;;;
      console Log "Registered at:" ;;;
      emit (SetUserObject (Profile.updater fid u))
    else ret tt.

Definition loadNeynarData (fid : Z) (showLoading : bool) : M Event unit :=
  (if showLoading then emit (Base (SetRecentCasts None)) else ret tt) ;;;
  if negb (env_truthy (NEYNAR_API_KEY env)) then
    console Warn "VITE_NEYNAR_API_KEY is not set â€“ skipping Neynar integration."
  else
    loadNeynarData_profile (template_env (NEYNAR_API_KEY env)) fid ;;;
    lift (loadNeynarData_casts env (template_env (NEYNAR_API_KEY env)) fid).

(** *** The effect that runs once, [init] *)

Definition inMiniApp : bool := true.

(** The mock context of the development build. *)
Definition ctx_fid : Z := 12345.

Definition baseUser : Profile.UserObject :=
  [ ("fid", JsNum ctx_fid);
    ("username",
     coalesce (JsStr "testuser") (JsStr ("user-" ++ string_of_Z ctx_fid)));
    ("displayName",
     coalesce (coalesce (JsStr "Test User") (JsStr "testuser"))
              (JsStr ("FID " ++ string_of_Z ctx_fid)));
    ("avatarUrl", JsStr "https://example.com/avatar.png") ].

Definition init : M Event unit :=
  try_catch
    (if negb inMiniApp then
       emit (SetError "Open this mini app from inside a Farcaster/Base client to see your dashboard.") ;;;
       emit (SetLoading false)
     else
       emit (SetUserTo baseUser) ;;;
       loadNeynarData ctx_fid false ;;;
       emit (SetLoading false))
    (fun e =>
       console Error e ;;;
       emit (SetError "Failed to load data from Farcaster Mini App context.") ;;;
       emit (SetLoading false)).

(** *** [handleRefreshData] *)

Definition handleRefreshData (user : option DashboardUser.t) : M Event unit :=
  match user with
  | None => ret tt
  | Some user => loadNeynarData (DashboardUser.fid user) true
  end.

(** *** [handleDownloadCard] *)

Definition download_form (user : option DashboardUser.t) (base64Data : string)
  : FormData :=
  let base64Image := match index (split "," base64Data) 1 with
                     | Some piece => piece
                     | None => "undefined"
                     end in
  let username := match user with
                  | Some user =>
                      if (DashboardUser.username user =? "")%string then "user"
                      else DashboardUser.username user
                  | None => "user"
                  end in
  [ ("file", "data:image/png;base64," ++ base64Image);
    ("upload_preset", template_env (CLOUDINARY_UPLOAD_PRESET env));
    ("public_id", "farcaster-id-card-" ++ username ++ "-"
                  ++ string_of_Z (Date_now env));
    ("folder", "farcaster-cards") ].

Definition download_request (user : option DashboardUser.t)
  (base64Data : string) : Request.t :=
  {| Request.url := upload_url env; Request.method := Some "POST";
     Request.headers := [];
     Request.body := Some (download_form user base64Data) |}.

Definition handleDownloadCard (user : option DashboardUser.t)
  (cardRef : option Element) : M Event unit :=
  match cardRef with
  | None => emit (Base (Alert "Card not ready. Please try again."))
  | Some current =>
      if negb (env_truthy (CLOUDINARY_CLOUD_NAME env))
         || negb (env_truthy (CLOUDINARY_UPLOAD_PRESET env)) then
        emit (Base (Alert "Cloudinary configuration missing. Please check environment variables."))
      else
        try_catch
          (blob <- lift (generatePngBlob env current) ;;
           match blob with
           | Some blob =>
               base64Data <- call (Base (ReadAsDataURL blob))
                                  (readAsDataURL env blob) ;;
               uploadResponse <-
                 call (Base (Fetch (download_request user base64Data)))
                      (fetch env (download_request user base64Data)) ;;
               if Response.ok uploadResponse then
                 uploadData <- call (Base ResponseJson)
                                    (Response.json uploadResponse) ;;
                 cloudinaryUrl <- settle (secure_url uploadData) ;;
                 call (WriteText cloudinaryUrl) (writeText cloudinaryUrl) ;;;
                 emit (Base (Alert ("âœ… Card uploaded to Cloudinary!" ++ newline ++ "ðŸ“‹ URL copied to clipboard:" ++ newline
                                    ++ toString cloudinaryUrl))) ;;;
                 console Log "Cloudinary upload successful:"
               else
                 errorData <- call (Base ResponseText)
                                   (Response.text uploadResponse) ;;
                 console Error "Cloudinary upload failed:" ;;;
                 emit (Base (Alert "Failed to upload card to Cloudinary. Please try again."))
           | None =>
               emit (Base (Alert "Failed to generate image. Please try again."))
           end)
          (fun error =>
             console Error "Error uploading to Cloudinary:" ;;;
             emit (Base (Alert "Failed to upload card. Please check console for details.")))
  end.

(** *** The embed meta tags, [setupEmbedMetaTag] *)

Definition embedData (cloudinaryUrl : JsVal) : JsVal :=
  JsObj
    [ ("version", JsStr "1");
      ("imageUrl", cloudinaryUrl);
      ("button",
       JsObj
         [ ("title", JsStr "Open Dashboard");
           ("action",
            JsObj
              [ ("type", JsStr "launch_miniapp");
                ("url", JsStr (MINIAPP_URL env));
                ("name", JsStr "Farcaster Dashboard ID");
                ("splashImageUrl", JsStr (MINIAPP_URL env ++ "/splash.png"));
                ("splashBackgroundColor", JsStr "#020617") ]) ]) ].

Definition setupEmbedMetaTag (user : option DashboardUser.t)
  (cardRef : option Element) : M Event unit :=
  match user, cardRef with
  | Some _, Some current =>
      if negb (env_truthy (CLOUDINARY_CLOUD_NAME env))
         || negb (env_truthy (CLOUDINARY_UPLOAD_PRESET env)) then ret tt
      else
        try_catch
          (cloudinaryUrl <- lift (uploadToCloudinary env current) ;;
           if truthy cloudinaryUrl then
             emit (AppendMeta "fc:miniapp" (stringify (embedData cloudinaryUrl))) ;;;
             emit (AppendMeta "fc:frame" (stringify (embedData cloudinaryUrl))) ;;;
             console Log "Embed meta tags set up with Cloudinary image:"
           else
             console Warn "Failed to generate/upload card image for embed")
          (fun error => console Error "Error setting up embed:")
  | _, _ => ret tt
  end.

End WithEnv.

(** *** What the component renders *)

Inductive Screen (U : Type) : Type :=
| LoadingScreen
| ErrorScreen (message : string)
| NoUserScreen
| DashboardScreen (user : U).
Arguments LoadingScreen {U}.
Arguments ErrorScreen {U} message.
Arguments NoUserScreen {U}.
Arguments DashboardScreen {U} user.

Definition render {U : Type} (loading : bool) (error : option string)
  (user : option U) : Screen U :=
  if loading then LoadingScreen
  else
    match error with
    | Some message =>
        if negb (message =? "")%string then ErrorScreen message
        else match user with
             | Some user => DashboardScreen user
             | None => NoUserScreen
             end
    | None =>
        match user with
        | Some user => DashboardScreen user
        | None => NoUserScreen
        end
    end.

(** The state the setters leave behind: the value of the last call. *)
Fixpoint loading_after (loading : bool) (t : list Event) : bool :=
  match t with
  | [] => loading
  | SetLoading value :: rest => loading_after value rest
  | _ :: rest => loading_after loading rest
  end.

Fixpoint error_after (error : option string) (t : list Event) : option string :=
  match t with
  | [] => error
  | SetError message :: rest => error_after (Some message) rest
  | _ :: rest => error_after error rest
  end.

Fixpoint recentCasts_after (recentCasts : option (list RecentCast.t))
  (t : list Event) : option (list RecentCast.t) :=
  match t with
  | [] => recentCasts
  | Base (SetRecentCasts value) :: rest => recentCasts_after value rest
  | _ :: rest => recentCasts_after recentCasts rest
  end.

(** Kinds of events, for counting. *)
Definition is_alert (ev : Event) : bool :=
  match ev with
  | Base (Alert _) => true
  | _ => false
  end.

Definition is_fetch (ev : Event) : bool :=
  match ev with
  | Base (Fetch _) => true
  | _ => false
  end.

Definition is_write (ev : Event) : bool :=
  match ev with
  | WriteText _ => true
  | _ => false
  end.

Definition is_meta (ev : Event) : bool :=
  match ev with
  | AppendMeta _ _ => true
  | _ => false
  end.

Definition is_state_change (ev : Event) : bool :=
  match ev with
  | Base (SetSharing _) | Base (SetRecentCasts _) | Base (SetUser _)
  | SetUserObject _ | SetUserTo _ | SetError _ | SetLoading _ => true
  | _ => false
  end.

End Handlers.

(** Kinds of events of [App], for counting. *)
Module Kinds.
Import Js Effects App.

Definition is_alert (ev : Event) : bool :=
  match ev with
  | Alert _ => true
  | _ => false
  end.

Definition is_compose (ev : Event) : bool :=
  match ev with
  | ComposeCast _ _ => true
  | _ => false
  end.

Definition is_set_sharing (ev : Event) : bool :=
  match ev with
  | SetSharing _ => true
  | _ => false
  end.

Definition is_state_change (ev : Event) : bool :=
  match ev with
  | SetSharing _ | SetRecentCasts _ | SetUser _ => true
  | _ => false
  end.

(** The element an event hands to a rasterizing library. *)
Definition rasterized_element (ev : Event) : option Element :=
  match ev with
  | Html2canvas el _ | HtmlToImageToBlob el _ | DomToImageToBlob el _ => Some el
  | _ => None
  end.

(** The elements a run rasterizes, in order. *)
Fixpoint rasterized (events : list Event) : list Element :=
  match events with
  | [] => []
  | ev :: rest =>
      match rasterized_element ev with
      | Some el => el :: rasterized rest
      | None => rasterized rest
      end
  end.

(** The events of [App] among those of the handlers. *)
Fixpoint base_events (events : list Handlers.Event) : list Event :=
  match events with
  | [] => []
  | Handlers.Base ev :: rest => ev :: base_events rest
  | _ :: rest => base_events rest
  end.

(** [user] with another [bio]. *)
Definition with_bio (user : DashboardUser.t) (bio : option string)
  : DashboardUser.t :=
  {| DashboardUser.fid := DashboardUser.fid user;
     DashboardUser.username := DashboardUser.username user;
     DashboardUser.displayName := DashboardUser.displayName user;
     DashboardUser.avatarUrl := DashboardUser.avatarUrl user;
     DashboardUser.primaryAddress := DashboardUser.primaryAddress user;
     DashboardUser.followersCount := DashboardUser.followersCount user;
     DashboardUser.followingCount := DashboardUser.followingCount user;
     DashboardUser.castsCount := DashboardUser.castsCount user;
     DashboardUser.reactionsCount := DashboardUser.reactionsCount user;
     DashboardUser.location := DashboardUser.location user;
     DashboardUser.bio := bio;
     DashboardUser.neynarScore := DashboardUser.neynarScore user;
     DashboardUser.dateOfBirth := DashboardUser.dateOfBirth user |}.

(** The seven properties the profile updater assigns. *)
Definition profile_keys : list string :=
  [ "avatarUrl"; "followersCount"; "followingCount"; "bio"; "location";
    "primaryAddress"; "neynarScore" ].

(** What [handleShare] hands to [composeCast] as embeds. *)
Definition share_embeds (env : Env) (user : option DashboardUser.t)
  (cardRef : option Element) : list JsVal :=
  match cardRef with
  | Some current =>
      match outcome (uploadToCloudinary env current) with
      | Ok cloudinaryUrl =>
          if truthy cloudinaryUrl then
            match user with
            | Some user =>
                [cloudinaryUrl; JsStr (MINIAPP_URL env);
                 JsStr ("@" ++ DashboardUser.username user)]
            | None => [cloudinaryUrl; JsStr (MINIAPP_URL env)]
            end
          else [JsStr (MINIAPP_URL env)]
      | Throw _ => [JsStr (MINIAPP_URL env)]
      end
  | None => [JsStr (MINIAPP_URL env)]
  end.

End Kinds.

(** ** More concrete environments *)

Module Cases.
Import Js Effects App.

(** [e] with another Neynar API key. *)
Definition with_key (key : option string) (e : Env) : Env :=
  {| MINIAPP_URL := MINIAPP_URL e;
     NEYNAR_API_KEY := key;
     CLOUDINARY_CLOUD_NAME := CLOUDINARY_CLOUD_NAME e;
     CLOUDINARY_UPLOAD_PRESET := CLOUDINARY_UPLOAD_PRESET e;
     PNG_METHOD := PNG_METHOD e;
     querySelector := querySelector e;
     html2canvas := html2canvas e;
     toBlob := toBlob e;
     htmlToImage_toBlob := htmlToImage_toBlob e;
     domtoimage_toBlob := domtoimage_toBlob e;
     readAsDataURL := readAsDataURL e;
     fetch := fetch e;
     Date_now := Date_now e;
     composeCast := composeCast e;
     toFixed := toFixed e;
     parseFloat := parseFloat e |}.

Definition withoutKey : Env := with_key None Scenarios.happy.


(** A user of the bulk endpoint. *)
Definition apiUser : JsVal :=
  JsObj [ ("username", JsStr "alice");
          ("display_name", JsStr "Alice");
          ("pfp_url", JsStr "https://example.com/alice.png");
          ("follower_count", JsNum 120);
          ("following_count", JsNum 80);
          ("profile", JsObj [
             ("bio", JsObj [("text", JsStr "building")]);
             ("location", JsObj [("address", JsObj [("city", JsStr "Lisbon")])]) ]);
          ("verified_addresses", JsObj [
             ("primary", JsObj [("eth_address", JsStr "")]);
             ("eth_addresses", JsArr [JsStr "0x1234567890abcdef1234567890abcdef12345678"]) ]);
          ("custody_address", JsStr "0xc0ffee") ].

Definition storedUser : Profile.UserObject :=
  [ ("fid", JsNum 12345); ("username", JsStr "testuser");
    ("displayName", JsStr "Test User");
    ("avatarUrl", JsStr "https://example.com/avatar.png");
    ("castsCount", JsNum 41); ("reactionsCount", JsNum 15) ].

(** A casts response with one cast, whose [reactions] are given. *)
Definition reactingBody (reactions : JsVal) : JsVal :=
  JsObj [ ("result", JsObj [
    ("casts", JsArr [
       JsObj [ ("hash", JsStr "0xa1"); ("text", JsStr "gm");
               ("timestamp", JsStr "2024-05-01T08:00:00Z");
               ("reactions", reactions) ] ]) ]) ].

Definition reactingResponse (reactions : JsVal) : Response.t :=
  {| Response.ok := true; Response.status := 200;
     Response.json := Ok (reactingBody reactions); Response.text := Ok "" |}.

Definition reacting (reactions : JsVal) : Env :=
  Scenarios.browser "html2canvas" (Ok (Some Scenarios.png))
    (Ok (reactingResponse reactions)).

(** The reactions as the feed endpoint lists them: who liked, and how many
    recasts. *)
Definition likers : JsVal :=
  JsObj [ ("likes", JsArr [JsObj [("fid", JsNum 3)]]); ("recasts_count", JsNum 2) ].

(** Counts at the edge of what a number holds exactly. *)
Definition manyLikes : JsVal :=
  JsObj [ ("likes_count", JsNum 9007199254740992); ("recasts_count", JsNum 1) ].

End Cases.

(** * Properties *)

Import Js Effects App.

(** ** [formatAddress] *)

Lemma list_ascii_of_substring (n m : nat) (s : string) :
  list_ascii_of_string (substring n m s)
  = firstn m (skipn n (list_ascii_of_string s)).
Proof.
  revert n m; induction s as [|c s IH]; intros [|n] [|m]; simpl;
    try reflexivity.
  - now rewrite IH.
  - apply IH.
  - apply IH.
Qed.

Lemma length_list_ascii_of_string (s : string) :
  List.length (list_ascii_of_string s) = String.length s.
Proof. induction s; simpl; congruence. Qed.

Lemma firstn_min_length {A : Type} (n : nat) (l : list A) :
  firstn (Nat.min n (List.length l)) l = firstn n l.
Proof.
  destruct (Nat.le_ge_cases n (List.length l)) as [H|H].
  - now rewrite Nat.min_l.
  - rewrite Nat.min_r by assumption.
    now rewrite firstn_all, firstn_all2.
Qed.

Lemma slice_prefix (s : string) (k : Z) :
  0 <= k -> slice s 0 (Some k) = Spec.first_chars (Z.to_nat k) s.
Proof.
  intros Hk. unfold slice, Spec.first_chars, clamp_index.
  rewrite <- (string_of_list_ascii_of_string (substring _ _ s)).
  f_equal. rewrite list_ascii_of_substring.
  assert (E0 : (0 <? 0) = false) by reflexivity. rewrite E0.
  assert (Ek : (k <? 0) = false) by (apply Z.ltb_ge; lia). rewrite Ek.
  replace (Z.to_nat (Z.min 0 (Z.of_nat (String.length s)))) with 0%nat by lia.
  replace (Z.to_nat (Z.min k (Z.of_nat (String.length s)) - Z.min 0 (Z.of_nat (String.length s))))
    with (Nat.min (Z.to_nat k) (List.length (list_ascii_of_string s)))
    by (rewrite length_list_ascii_of_string; lia).
  simpl skipn. apply firstn_min_length.
Qed.

Lemma slice_suffix (s : string) (k : Z) :
  0 < k -> slice s (- k) None = Spec.last_chars (Z.to_nat k) s.
Proof.
  intros Hk. unfold slice, Spec.last_chars, clamp_index.
  rewrite <- (string_of_list_ascii_of_string (substring _ _ s)).
  f_equal. rewrite list_ascii_of_substring.
  assert (Ek : (- k <? 0) = true) by (apply Z.ltb_lt; lia). rewrite Ek.
  set (len := String.length s).
  replace (Z.to_nat (Z.max (Z.of_nat len + - k) 0)) with (len - Z.to_nat k)%nat by lia.
  apply firstn_all2.
  rewrite length_skipn, length_list_ascii_of_string. fold len. lia.
Qed.

(** C7. [formatAddress] gives ['Not connected'] for an undefined and for an
    empty address, and for every non-empty address its first six
    characters, then ['...'], then its last four characters. *)
Theorem formatAddress_spec :
  Dashboard.formatAddress None = "Not connected"
  /\ Dashboard.formatAddress (Some "") = "Not connected"
  /\ forall address : string,
       address <> "" ->
       Dashboard.formatAddress (Some address)
       = Spec.first_chars 6 address ++ "..." ++ Spec.last_chars 4 address.
Proof.
  split; [reflexivity|]. split; [reflexivity|].
  intros address Hne. unfold Dashboard.formatAddress.
  destruct (String.eqb_spec address "") as [E|_]; [contradiction|].
  rewrite (slice_prefix address 6) by lia.
  change (slice address (-4) None) with (slice address (Z.opp 4) None).
  rewrite (slice_suffix address 4) by lia.
  reflexivity.
Qed.

Lemma formatAddress_spec_witness :
  Dashboard.formatAddress (Some "0x1234567890abcdef1234567890abcdef12345678")
  = "0x1234...5678"
  /\ Dashboard.formatAddress (Some "0xab") = "0xab...0xab".
Proof.
  destruct formatAddress_spec as (_ & _ & H).
  split.
  - rewrite (H "0x1234567890abcdef1234567890abcdef12345678") by discriminate.
    reflexivity.
  - rewrite (H "0xab") by discriminate. reflexivity.
Defined.

(** ** [changeCardBackground] *)

Lemma indexOf_from_bounds (xs : list string) (x : string) (i : Z) :
  indexOf_from i xs x = -1
  \/ i <= indexOf_from i xs x < i + Z.of_nat (List.length xs).
Proof.
  revert i; induction xs as [|y xs IH]; intros i; simpl.
  - now left.
  - destruct (y =? x)%string.
    + right; lia.
    + destruct (IH (i + 1)) as [E|B]; [now left | right; lia].
Qed.

(** Whatever the state holds, the next background is an entry of the list. *)
Lemma changeCardBackground_defined (cardBackground : string) :
  exists next,
    Dashboard.changeCardBackground cardBackground = Some next
    /\ In next Dashboard.backgroundOptions.
Proof.
  unfold Dashboard.changeCardBackground, indexOf.
  pose proof (indexOf_from_bounds Dashboard.backgroundOptions cardBackground 0) as B.
  set (currentIndex := indexOf_from 0 Dashboard.backgroundOptions cardBackground) in *.
  change (Z.of_nat (List.length Dashboard.backgroundOptions)) with 6 in *.
  assert (R : 0 <= Z.rem (currentIndex + 1) 6 < 6)
    by (apply Z.rem_bound_pos; lia).
  set (nextIndex := Z.rem (currentIndex + 1) 6) in *.
  assert (C : nextIndex = 0 \/ nextIndex = 1 \/ nextIndex = 2
              \/ nextIndex = 3 \/ nextIndex = 4 \/ nextIndex = 5) by lia.
  destruct C as [E|[E|[E|[E|[E|E]]]]]; rewrite E; eexists;
    (split; [reflexivity | simpl; tauto]).
Qed.

(** C6. [backgroundOptions] has six entries; [changeCardBackground] moves
    from the entry at index [i] to the one at index [i + 1], and from the
    last one to the first; six applications from an entry of the list come
    back to it. *)
Theorem changeCardBackground_cycles :
  List.length Dashboard.backgroundOptions = 6%nat
  /\ (forall (i : Z) (cardBackground : string),
        index Dashboard.backgroundOptions i = Some cardBackground ->
        Dashboard.changeCardBackground cardBackground
        = index Dashboard.backgroundOptions ((i + 1) mod 6))
  /\ (forall cardBackground : string,
        In cardBackground Dashboard.backgroundOptions ->
        Dashboard.changeCardBackground_times 6 cardBackground
        = Some cardBackground).
Proof.
  split; [reflexivity|]. split.
  - intros i bg H. unfold index in H.
    destruct (i <? 0) eqn:Hi; [discriminate|]. apply Z.ltb_ge in Hi.
    assert (Hlt : (Z.to_nat i < 6)%nat).
    { change 6%nat with (List.length Dashboard.backgroundOptions).
      apply nth_error_Some. congruence. }
    assert (C : i = 0 \/ i = 1 \/ i = 2 \/ i = 3 \/ i = 4 \/ i = 5) by lia.
    destruct C as [E|[E|[E|[E|[E|E]]]]]; subst i; simpl in H;
      injection H as <-; reflexivity.
  - intros bg H. simpl in H.
    destruct H as [H|[H|[H|[H|[H|[H|[]]]]]]]; subst bg; reflexivity.
Qed.

Lemma changeCardBackground_cycles_witness :
  Dashboard.changeCardBackground "#020617"
  = Some Dashboard.initialCardBackground
  /\ Dashboard.changeCardBackground_times 6 "#020617" = Some "#020617".
Proof.
  destruct changeCardBackground_cycles as (_ & Hnext & Hsix).
  split.
  - exact (Hnext 5 "#020617" eq_refl).
  - apply Hsix. simpl. tauto.
Defined.

(** ** Recent Activity *)

Section ActivityList.
Variable toLocaleString : JsVal -> string.

Lemma castItem_key (cast : RecentCast.t) :
  Dashboard.ActivityItem.key (Dashboard.castItem toLocaleString cast)
  = Some (RecentCast.hash cast).
Proof. reflexivity. Qed.

(** C9. The list shows one loading item while [recentCasts] is undefined,
    one item per cast, keyed by its hash, when there are casts, and the
    two placeholder items when the list is empty; no two of these
    renderings coincide. *)
Theorem activityList_states (recentCasts : option (list RecentCast.t)) :
  let items := Dashboard.activityList toLocaleString recentCasts in
  match recentCasts with
  | None => items = [Dashboard.loadingItem]
  | Some [] =>
      items = Dashboard.placeholderItems
      /\ List.length items = 2%nat
      /\ items <> [Dashboard.loadingItem]
  | Some casts =>
      items = map (Dashboard.castItem toLocaleString) casts
      /\ List.length items = List.length casts
      /\ map Dashboard.ActivityItem.key items
         = map (fun cast => Some (RecentCast.hash cast)) casts
      /\ items <> [Dashboard.loadingItem]
      /\ items <> Dashboard.placeholderItems
  end.
Proof.
  destruct recentCasts as [[|cast casts]|]; cbv zeta.
  - split; [reflexivity|]. split; [reflexivity|]. discriminate.
  - unfold Dashboard.activityList. cbn [Dashboard.isLoadingCasts Dashboard.hasRealActivity].
    change (0 <? List.length (cast :: casts))%nat with true. cbv iota.
    split; [reflexivity|]. split; [apply length_map|].
    split; [rewrite map_map; reflexivity|].
    split; intros H; apply (f_equal (map Dashboard.ActivityItem.key)) in H;
      simpl in H; discriminate.
  - reflexivity.
Qed.

End ActivityList.

(** ** The image pipeline *)

(** Case analysis on every outside answer a goal still depends on. *)
Ltac split_answers :=
  repeat match goal with
         | |- context [match ?x with _ => _ end] =>
             lazymatch x with
             | context [match _ with _ => _ end] => fail
             | _ => destruct x eqn:?
             end; cbn
         end.

(** [generatePngBlob], branch by branch, each with its [catch] applied. *)
Lemma generatePngBlob_branches (env : Env) (element : Element) :
  generatePngBlob env element = Spec.dispatch env element.
Proof.
  unfold Spec.dispatch, generatePngBlob, generatePngBlob_try, canvas_blob_promise,
    Spec.via_html2canvas, Spec.via_library.
  destruct (PNG_METHOD env =? "html2canvas")%string.
  - destruct (html2canvas env element html2canvas_options); cbn;
      [destruct (toBlob env a "image/png" 1)|]; reflexivity.
  - destruct (PNG_METHOD env =? "html-to-image")%string.
    + destruct (htmlToImage_toBlob env element htmlToImage_options); reflexivity.
    + destruct (PNG_METHOD env =? "dom-to-image")%string.
      * destruct (domtoimage_toBlob env element domtoimage_options); reflexivity.
      * destruct (html2canvas env element fallback_options); cbn;
          [destruct (toBlob env a "image/png" 1)|]; reflexivity.
Qed.

(** C2. [generatePngBlob] dispatches on [PNG_METHOD]: html2canvas and the
    conversion of its canvas to a PNG blob for ['html2canvas'],
    [htmlToImage.toBlob] for ['html-to-image'], [domtoimage.toBlob] for
    ['dom-to-image'], and for any other value a warning followed by the
    html2canvas path (with the fallback options). *)
Theorem generatePngBlob_dispatch (env : Env) (element : Element) :
  generatePngBlob env element =
    if (PNG_METHOD env =? "html2canvas")%string then
      Spec.via_html2canvas env element html2canvas_options
    else if (PNG_METHOD env =? "html-to-image")%string then
      Spec.via_library env (HtmlToImageToBlob element htmlToImage_options)
        (htmlToImage_toBlob env element htmlToImage_options)
    else if (PNG_METHOD env =? "dom-to-image")%string then
      Spec.via_library env (DomToImageToBlob element domtoimage_options)
        (domtoimage_toBlob env element domtoimage_options)
    else
      bind (console Warn ("Unknown PNG method: " ++ PNG_METHOD env
                          ++ ", falling back to html2canvas"))
           (fun _ => Spec.via_html2canvas env element fallback_options).
Proof. exact (generatePngBlob_branches env element). Qed.

(** When [generatePngBlob] rejects: only on an html2canvas path, with
    what [canvas.toBlob] threw. *)
Lemma generatePngBlob_rejects (env : Env) (element : Element) (e : JsError) :
  outcome (generatePngBlob env element) = Throw e <->
  (PNG_METHOD env =? "html-to-image")%string = false
  /\ (PNG_METHOD env =? "dom-to-image")%string = false
  /\ exists c,
       html2canvas env element
         (if (PNG_METHOD env =? "html2canvas")%string
          then html2canvas_options else fallback_options) = Ok c
       /\ toBlob env c "image/png" 1 = Throw e.
Proof.
  rewrite generatePngBlob_branches.
  unfold Spec.dispatch, Spec.via_html2canvas, Spec.via_library.
  destruct (PNG_METHOD env =? "html2canvas")%string eqn:E1.
  - apply String.eqb_eq in E1.
    rewrite E1. cbn [String.eqb Ascii.eqb Bool.eqb].
    destruct (html2canvas env element html2canvas_options) as [c|e']; cbn.
    + split.
      * intros H. repeat split. exists c. now split.
      * intros (_ & _ & c' & Hc & H). now injection Hc as <-.
    + split; [discriminate|]. intros (_ & _ & c' & Hc & _). discriminate.
  - destruct (PNG_METHOD env =? "html-to-image")%string.
    + destruct (htmlToImage_toBlob env element htmlToImage_options); cbn;
        (split; [discriminate | intros (H & _); discriminate]).
    + destruct (PNG_METHOD env =? "dom-to-image")%string.
      * destruct (domtoimage_toBlob env element domtoimage_options); cbn;
          (split; [discriminate | intros (_ & H & _); discriminate]).
      * destruct (html2canvas env element fallback_options) as [c|e']; cbn.
        -- split.
           ++ intros H. repeat split. exists c. now split.
           ++ intros (_ & _ & c' & Hc & H). now injection Hc as <-.
        -- split; [discriminate|]. intros (_ & _ & c' & Hc & _). discriminate.
Qed.

(** C4. With [PNG_METHOD = 'html2canvas'], an exception of
    [canvas.toBlob] is not caught: the promise built around it is returned
    from the [try] without an [await], so [generatePngBlob] rejects and
    nothing is logged. *)
Theorem generatePngBlob_toBlob_throw_escapes :
  generatePngBlob Scenarios.taintedCanvas Scenarios.cardElement
  = (Throw "SecurityError",
     [ Html2canvas Scenarios.cardElement html2canvas_options;
       CanvasToBlob Scenarios.rendered "image/png" 1 ]).
Proof. reflexivity. Qed.

(** C1, as amended. [uploadToCloudinary] never raises.  It returns the
    [secure_url] of the upload response exactly when the configuration is
    present and every stage succeeds in order: the card element is found,
    rasterization yields a blob, the blob is read as a data URL, the
    upload request resolves with an [ok] response, and the body of that
    response is read as JSON and is not [null].  Otherwise it returns
    [null]. *)
Theorem uploadToCloudinary_result (env : Env) (element : Element) :
  outcome (uploadToCloudinary env element)
  = Ok (if Spec.configured env then
          match Spec.upload_data env element with
          | Some uploadData => prop "secure_url" uploadData
          | None => JsNull
          end
        else JsNull).
Proof.
  unfold uploadToCloudinary, Spec.configured, Spec.upload_data, Spec.uploaded,
    Spec.encoded, Spec.rasterized, Spec.card, secure_url.
  destruct (env_truthy (CLOUDINARY_CLOUD_NAME env));
    destruct (env_truthy (CLOUDINARY_UPLOAD_PRESET env)); try reflexivity.
  cbn [negb orb andb].
  destruct (querySelector env element ".fc-idcard") as [cardElement|];
    [|reflexivity].
  destruct (generatePngBlob env cardElement) as [[[b|]|e] t]; try reflexivity.
  cbn.
  destruct (readAsDataURL env b) as [base64Data|e]; [|reflexivity].
  cbn.
  destruct (fetch env (upload_request env base64Data)) as [r|e]; [|reflexivity].
  cbn.
  destruct (Response.ok r); cbn.
  - destruct (Response.json r) as [uploadData|e]; [|reflexivity].
    cbn. destruct (nullish uploadData); reflexivity.
  - destruct (Response.text r); reflexivity.
Qed.

(** C1, as stated, fails.  Here the configuration is present and every
    stage the claim lists succeeds (the card is found, there is a blob, it
    is read as a data URL, the response is [ok]), but the body of the
    response is not JSON: the function returns [null], not a
    [secure_url]. *)
Lemma uploadToCloudinary_unreadable_body :
  Spec.configured Scenarios.unreadableBody = true
  /\ Spec.uploaded Scenarios.unreadableBody Scenarios.root
     = Some Scenarios.unreadable
  /\ outcome (uploadToCloudinary Scenarios.unreadableBody Scenarios.root)
     = Ok JsNull
  /\ ~ Spec.returns_secure_url Scenarios.unreadableBody Scenarios.root.
Proof.
  split; [reflexivity|]. split; [reflexivity|]. split; [reflexivity|].
  intros (r & uploadData & Hr & Hjson & _).
  injection Hr as <-. discriminate Hjson.
Qed.

(** Closes a fully split case of the pipeline by evaluation. *)
Ltac close_case :=
  cbn;
  repeat match goal with
         | |- _ /\ _ => split
         end;
  try reflexivity; try (cbn; lia);
  try (intros; repeat match goal with
                      | H : Some _ = Some _ |- _ => injection H as H; subst
                      | H : None = Some _ |- _ => discriminate H
                      end;
       try discriminate; try congruence;
       try (split; reflexivity)).

(** C5. No stage of the pipeline is attempted twice: the trace of
    [uploadToCloudinary] holds at most one upload request and no stage
    call more than once; and when the upload response is not [ok] the
    function returns [null] and calls no stage after the request. *)
Theorem uploadToCloudinary_no_retry (env : Env) (element : Element) :
  let t := trace (uploadToCloudinary env element) in
  (List.length (filter Spec.is_fetch t) <= 1)%nat
  /\ Spec.each_stage_once t = true
  /\ (forall (base64Data : string) (r : Response.t),
        Spec.configured env = true ->
        Spec.encoded env element = Some base64Data ->
        fetch env (upload_request env base64Data) = Ok r ->
        Response.ok r = false ->
        outcome (uploadToCloudinary env element) = Ok JsNull
        /\ filter Spec.is_stage_call (Spec.after_fetch t) = []).
Proof.
  unfold uploadToCloudinary, Spec.configured, Spec.encoded, Spec.rasterized,
    Spec.card.
  destruct (env_truthy (CLOUDINARY_CLOUD_NAME env));
    destruct (env_truthy (CLOUDINARY_UPLOAD_PRESET env)); cbn [negb orb andb];
    try solve [close_case].
  destruct (querySelector env element ".fc-idcard") as [cardElement|];
    [|solve [close_case]].
  rewrite generatePngBlob_branches.
  unfold Spec.dispatch, Spec.via_html2canvas, Spec.via_library.
  split_answers.
  all: try solve [close_case].

Qed.

Lemma uploadToCloudinary_no_retry_witness :
  outcome (uploadToCloudinary Scenarios.refusedUpload Scenarios.root) = Ok JsNull
  /\ List.length
       (filter Spec.is_fetch
          (trace (uploadToCloudinary Scenarios.refusedUpload Scenarios.root)))
     = 1%nat.
Proof.
  destruct (uploadToCloudinary_no_retry Scenarios.refusedUpload Scenarios.root)
    as (_ & _ & H).
  destruct (H "data:image/png;base64,iVBORw0KGgo=" Scenarios.refused
              eq_refl eq_refl eq_refl eq_refl) as [Hnull _].
  split; [exact Hnull | reflexivity].
Defined.

(** ** The casts step of [loadNeynarData] *)

Lemma coalesce_chain (a b c d default : JsVal) :
  coalesce (coalesce (coalesce (coalesce a b) c) d) default
  = Spec.first_non_null [a; b; c; d] default.
Proof.
  unfold coalesce; simpl.
  destruct (nullish a) eqn:Ea; rewrite ?Ea; [|reflexivity].
  destruct (nullish b) eqn:Eb; rewrite ?Eb; [|reflexivity].
  destruct (nullish c) eqn:Ec; rewrite ?Ec; [|reflexivity].
  destruct (nullish d) eqn:Ed; rewrite ?Ed; reflexivity.
Qed.

Lemma opt_prop_defined (k : string) (v : JsVal) :
  nullish v = false -> opt_prop k v = prop k v.
Proof. intros H. unfold opt_prop. now rewrite H. Qed.

Lemma processCast_reactions (c : JsVal) (cast : RecentCast.t) :
  processCast c = Ok cast ->
  RecentCast.likes cast = Spec.likes_of c
  /\ RecentCast.recasts cast = Spec.recasts_of c.
Proof.
  unfold processCast. destruct (nullish c) eqn:Hc; [discriminate|].
  intros H; injection H as <-. cbn [RecentCast.likes RecentCast.recasts].
  rewrite !coalesce_chain.
  unfold Spec.likes_of, Spec.recasts_of, Spec.field. cbn [fold_left].
  rewrite !(opt_prop_defined _ c Hc). split; reflexivity.
Qed.

Lemma map_result_Forall2 {A B : Type} (f : A -> result B) (xs : list A)
  (ys : list B) :
  map_result f xs = Ok ys -> Forall2 (fun x y => f x = Ok y) xs ys.
Proof.
  revert ys; induction xs as [|x xs IH]; intros ys; simpl.
  - intros H; injection H as <-. constructor.
  - destruct (f x) as [y|e] eqn:Hx; [|discriminate].
    destruct (map_result f xs) as [ys'|e]; [|discriminate].
    intros H; injection H as <-. constructor; auto.
Qed.

Lemma processCasts_reactions (castsData : JsVal) (casts : list RecentCast.t) :
  processCasts castsData = Ok casts ->
  Forall2
    (fun c cast =>
       RecentCast.likes cast = Spec.likes_of c
       /\ RecentCast.recasts cast = Spec.recasts_of c)
    (Spec.response_casts castsData) casts.
Proof.
  unfold processCasts, Spec.response_casts, Spec.field. cbn [fold_left].
  destruct (nullish castsData) eqn:Hd; [discriminate|].
  rewrite (opt_prop_defined "result" castsData Hd).
  destruct (opt_prop "casts" (prop "result" castsData)) as [| | | | | |items|];
    try discriminate;
    try (intros H; injection H as <-; constructor).
  intros H. apply map_result_Forall2 in H.
  induction H; constructor; auto using processCast_reactions.
Qed.

(** A response in the expected shape is processed: the casts are an array
    none of whose entries is [null]. *)
Lemma processCasts_defined (castsData : JsVal) (items : list JsVal) :
  nullish castsData = false ->
  Spec.field ["result"; "casts"] castsData = JsArr items ->
  forallb (fun c => negb (nullish c)) items = true ->
  exists casts, processCasts castsData = Ok casts.
Proof.
  unfold processCasts, Spec.field. cbn [fold_left]. intros Hd.
  rewrite Hd, (opt_prop_defined "result" castsData Hd). intros ->.
  clear. induction items as [|c items IH]; simpl.
  - eexists; reflexivity.
  - intros H. apply andb_true_iff in H as [Hc Hrest].
    destruct (IH Hrest) as [casts ->].
    unfold processCast. apply negb_true_iff in Hc. rewrite Hc.
    eexists; reflexivity.
Qed.

(** What the step does with an [ok] response whose body is processed. *)
Lemma loadNeynarData_casts_trace (env : Env) (apiKey : string) (fid : Z)
  (castsRes : Response.t) (castsData : JsVal) (casts : list RecentCast.t) :
  fetch env (casts_request apiKey fid) = Ok castsRes ->
  Response.ok castsRes = true ->
  Response.json castsRes = Ok castsData ->
  processCasts castsData = Ok casts ->
  loadNeynarData_casts env apiKey fid
  = (Ok tt,
     [ Fetch (casts_request apiKey fid); ResponseJson;
       Console Log "Casts API response:";
       Console Log "Processed casts with real reactions:";
       SetRecentCasts (Some casts);
       SetUser (castsUpdater castsData casts) ]).
Proof.
  intros Hfetch Hok Hjson Hcasts. unfold loadNeynarData_casts.
  rewrite Hfetch. cbn. rewrite Hok. cbn. rewrite Hjson. cbn.
  rewrite Hcasts. reflexivity.
Qed.

(** C3. For a casts response that [loadNeynarData] processes, the casts it
    stores correspond one to one to the casts of the response, and each
    has for [likes] the first non-null of [reactions.likes_count],
    [reactions.likes], [like_count], [likes], and for [recasts] the first
    non-null of [reactions.recasts_count], [reactions.recasts],
    [recast_count], [recasts], with [0] when all four are absent. *)
Theorem loadNeynarData_reactions_fields (env : Env) (apiKey : string)
  (fid : Z) (castsRes : Response.t) (castsData : JsVal)
  (casts : list RecentCast.t) :
  fetch env (casts_request apiKey fid) = Ok castsRes ->
  Response.ok castsRes = true ->
  Response.json castsRes = Ok castsData ->
  processCasts castsData = Ok casts ->
  In (SetRecentCasts (Some casts)) (trace (loadNeynarData_casts env apiKey fid))
  /\ Forall2
       (fun c cast =>
          RecentCast.likes cast = Spec.likes_of c
          /\ RecentCast.recasts cast = Spec.recasts_of c)
       (Spec.response_casts castsData) casts.
Proof.
  intros Hfetch Hok Hjson Hcasts. split.
  - rewrite (loadNeynarData_casts_trace env apiKey fid castsRes castsData casts)
      by assumption.
    simpl. tauto.
  - now apply processCasts_reactions.
Qed.

Lemma loadNeynarData_reactions_fields_witness :
  exists casts,
    In (SetRecentCasts (Some casts))
       (trace (loadNeynarData_casts Scenarios.neynar "neynar-key" 12345))
    /\ map RecentCast.likes casts = [JsNum 5; JsNum 7; JsNum 0]
    /\ map RecentCast.recasts casts = [JsNum 2; JsNum 1; JsNum 0].
Proof.
  destruct (processCasts Scenarios.castsBody) as [casts|e] eqn:E;
    [|discriminate E].
  exists casts.
  destruct (loadNeynarData_reactions_fields Scenarios.neynar "neynar-key" 12345
              Scenarios.castsResponse Scenarios.castsBody casts
              eq_refl eq_refl eq_refl E) as [Hin _].
  split; [exact Hin|].
  injection E as <-. split; reflexivity.
Defined.

Lemma round_double_exact (n : Z) : Z.abs n <= 2 ^ 53 -> round_double n = n.
Proof.
  intros H. unfold round_double.
  destruct (Z.leb_spec (Z.abs n) (2 ^ 53)) as [_|Hlt]; [reflexivity | lia].
Qed.

(** [sum + (count || 0)] for a count that is a number or missing. *)
Lemma add_count (acc : Z) (v : JsVal) :
  Spec.count v <> None ->
  Z.abs acc + Z.abs (Spec.count_or_zero v) <= 2 ^ 53 ->
  add (JsNum acc) (or v (JsNum 0)) = JsNum (acc + Spec.count_or_zero v).
Proof.
  intros Hv Hbound. unfold Spec.count_or_zero in *.
  destruct v as [| | |n| | | |]; try (exfalso; apply Hv; reflexivity);
    unfold or, add; cbn [truthy stringlike toNumber orb Spec.count] in *.
  1, 2: rewrite round_double_exact; [f_equal|]; lia.
  destruct (n =? 0) eqn:En; cbn [negb stringlike toNumber orb].
  - apply Z.eqb_eq in En. subst n.
    rewrite round_double_exact; [f_equal|]; lia.
  - rewrite round_double_exact; [reflexivity | lia].
Qed.

Lemma totalReactions_from (casts : list RecentCast.t) (acc : Z) :
  Forall Spec.counted casts ->
  Z.abs acc + Spec.reactions_magnitude casts <= 2 ^ 53 ->
  fold_left
    (fun sum cast =>
       add (add sum (or (RecentCast.likes cast) (JsNum 0)))
           (or (RecentCast.recasts cast) (JsNum 0)))
    casts (JsNum acc)
  = JsNum (acc + Spec.reactions_sum casts).
Proof.
  intros H; revert acc; induction H as [|cast casts [Hl Hr] _ IH]; intros acc Hb.
  - simpl. f_equal. lia.
  - cbn [fold_left Spec.reactions_sum Spec.reactions_magnitude] in *.
    assert (Hrest : 0 <= Spec.reactions_magnitude casts).
    { clear. induction casts as [|c cs IHcs]; simpl; lia. }
    rewrite add_count by (assumption || lia).
    rewrite add_count by (assumption || lia).
    rewrite IH by lia. f_equal. lia.
Qed.

(** C8, as amended. After a casts fetch that succeeds, the one updater handed
    to [setUser] gives the user, whatever [reactionsCount] it had, the
    total that [reduce] computes over the processed casts.  This total is
    the sum of their likes and recasts, a missing one counting for [0],
    when these are numbers whose absolute values add up to [2^53] at
    most. *)
Theorem loadNeynarData_reactionsCount (env : Env) (apiKey : string) (fid : Z)
  (castsRes : Response.t) (castsData : JsVal) (casts : list RecentCast.t) :
  fetch env (casts_request apiKey fid) = Ok castsRes ->
  Response.ok castsRes = true ->
  Response.json castsRes = Ok castsData ->
  processCasts castsData = Ok casts ->
  exists update,
    In (SetUser update) (trace (loadNeynarData_casts env apiKey fid))
    /\ (forall other, In (SetUser other) (trace (loadNeynarData_casts env apiKey fid)) ->
        other = update)
    /\ forall prev : DashboardUser.t,
         exists next,
           update (Some prev) = Some next
           /\ DashboardUser.reactionsCount next = totalReactions casts
           /\ (Forall Spec.counted casts ->
               Spec.reactions_magnitude casts <= 2 ^ 53 ->
               DashboardUser.reactionsCount next
               = JsNum (Spec.reactions_sum casts)).
Proof.
  intros Hfetch Hok Hjson Hcasts.
  exists (castsUpdater castsData casts).
  rewrite (loadNeynarData_casts_trace env apiKey fid castsRes castsData casts)
    by assumption.
  split; [simpl; tauto|]. split.
  - intros other H. simpl in H.
    repeat destruct H as [H|H]; try discriminate H; try contradiction.
    now injection H.
  - intros prev. eexists. split; [reflexivity|].
    cbn [DashboardUser.reactionsCount]. split; [reflexivity|].
    intros Hnum Hbound. unfold totalReactions.
    rewrite totalReactions_from by (assumption || (cbn [Z.abs]; lia)).
    reflexivity.
Qed.

Lemma loadNeynarData_reactionsCount_witness :
  exists update,
    In (SetUser update)
       (trace (loadNeynarData_casts Scenarios.neynar "neynar-key" 12345))
    /\ exists next,
         update (Some Scenarios.alice) = Some next
         /\ DashboardUser.reactionsCount next = JsNum 15.
Proof.
  destruct (processCasts Scenarios.castsBody) as [casts|e] eqn:E;
    [|discriminate E].
  destruct (loadNeynarData_reactionsCount Scenarios.neynar "neynar-key" 12345
              Scenarios.castsResponse Scenarios.castsBody casts
              eq_refl eq_refl eq_refl E) as (update & Hin & _ & Hset).
  exists update. split; [exact Hin|].
  destruct (Hset Scenarios.alice) as (next & Hnext & _ & Hcount).
  exists next. split; [exact Hnext|].
  rewrite Hcount.
  - injection E as <-. reflexivity.
  - injection E as <-. repeat constructor; discriminate.
  - injection E as <-. vm_compute. discriminate.
Defined.

(** C8, as stated, fails on two responses.  A cast that lists who liked it
    ([reactions.likes], without [likes_count]) has that list for [likes],
    and [+] concatenates: the total is the string [0[object Object]2].
    And [2^53] likes and one recast add up to [2^53], the nearest number
    there is. *)
Lemma loadNeynarData_reactionsCount_not_the_sum :
  (exists update next,
     In (SetUser update)
        (trace (loadNeynarData_casts (Cases.reacting Cases.likers)
                  "neynar-key" 12345))
     /\ update (Some Scenarios.alice) = Some next
     /\ DashboardUser.reactionsCount next = JsStr "0[object Object]2")
  /\ (exists update next casts,
        In (SetUser update)
           (trace (loadNeynarData_casts (Cases.reacting Cases.manyLikes)
                     "neynar-key" 12345))
        /\ update (Some Scenarios.alice) = Some next
        /\ processCasts (Cases.reactingBody Cases.manyLikes) = Ok casts
        /\ Spec.reactions_sum casts = 9007199254740993
        /\ DashboardUser.reactionsCount next = JsNum 9007199254740992).
Proof.
  split.
  - destruct (processCasts (Cases.reactingBody Cases.likers)) as [casts|e] eqn:E;
      [|discriminate E].
    exists (castsUpdater (Cases.reactingBody Cases.likers) casts).
    eexists. split; [|split; [reflexivity|]].
    + rewrite (loadNeynarData_casts_trace (Cases.reacting Cases.likers)
                 "neynar-key" 12345 (Cases.reactingResponse Cases.likers)
                 (Cases.reactingBody Cases.likers) casts
                 eq_refl eq_refl eq_refl E).
      simpl. tauto.
    + injection E as <-. vm_compute. reflexivity.
  - destruct (processCasts (Cases.reactingBody Cases.manyLikes)) as [casts|e] eqn:E;
      [|discriminate E].
    exists (castsUpdater (Cases.reactingBody Cases.manyLikes) casts).
    eexists. exists casts. split; [|split; [reflexivity|split; [reflexivity|]]].
    + rewrite (loadNeynarData_casts_trace (Cases.reacting Cases.manyLikes)
                 "neynar-key" 12345 (Cases.reactingResponse Cases.manyLikes)
                 (Cases.reactingBody Cases.manyLikes) casts
                 eq_refl eq_refl eq_refl E).
      simpl. tauto.
    + injection E as <-. split; vm_compute; reflexivity.
Qed.

(** ** [handleShare] *)




(** * Further properties *)


(** ** The theme *)

Lemma startsWith_spec (s sub : string) :
  Theme.startsWith s sub = true <-> exists post, s = sub ++ post.
Proof.
  revert s; induction sub as [|a sub IH]; intros [|b s]; simpl.
  - split; [intros _; now exists "" | reflexivity].
  - split; [intros _; now exists (String b s) | reflexivity].
  - split; [discriminate | intros [post H]; discriminate].
  - rewrite andb_true_iff, IH. split.
    + intros [Hab [post ->]]. apply Ascii.eqb_eq in Hab as ->. now exists post.
    + intros [post H]. injection H as -> ->. split.
      * apply Ascii.eqb_refl.
      * now exists post.
Qed.

Lemma includes_spec (s sub : string) :
  Theme.includes s sub = true <-> exists pre post, s = pre ++ sub ++ post.
Proof.
  induction s as [|c s IH]; cbn [Theme.includes];
    rewrite orb_true_iff, startsWith_spec.
  - split.
    + intros [[post H]|H]; [|discriminate]. now exists "", post.
    + intros (pre & post & H). left. destruct pre; [now exists post|discriminate].
  - rewrite IH. split.
    + intros [[post H]|(pre & post & ->)].
      * now exists "", post.
      * now exists (String c pre), post.
    + intros (pre & post & H). destruct pre as [|d pre].
      * left. now exists post.
      * right. injection H as -> ->. now exists pre, post.
Qed.

(** X1. Each gradient of [backgroundOptions] runs from the primary to the
    secondary colour of its theme; the dark background has the default
    theme. *)
Theorem theme_matches_background (bg : string) :
  In bg Dashboard.backgroundOptions ->
  (bg = "#020617" /\ Theme.getThemeColors bg = Theme.defaultTheme)
  \/ bg = "linear-gradient(135deg, "
          ++ Theme.primary (Theme.getThemeColors bg) ++ " 0%, "
          ++ Theme.secondary (Theme.getThemeColors bg) ++ " 100%)".
Proof.
  intros H. simpl in H.
  destruct H as [H|[H|[H|[H|[H|[H|[]]]]]]]; subst bg;
    try (right; reflexivity).
  left. split; reflexivity.
Qed.

Lemma theme_matches_background_witness :
  Theme.primary (Theme.getThemeColors Dashboard.initialCardBackground) = "#667eea"
  /\ Theme.secondary (Theme.getThemeColors Dashboard.initialCardBackground) = "#764ba2".
Proof.
  destruct (theme_matches_background Dashboard.initialCardBackground) as [[H _]|H].
  - simpl. tauto.
  - discriminate H.
  - split; reflexivity.
Defined.

(** X2. [getThemeColors] gives the default theme exactly for a background
    that contains none of the five colour codes, and the first theme for
    every background that contains ['#667eea'], whatever else it holds. *)
Theorem getThemeColors_by_occurrence (bg : string) :
  (Theme.getThemeColors bg = Theme.defaultTheme <->
   forall code,
     In code ["#667eea"; "#f093fb"; "#4facfe"; "#43e97b"; "#fa709a"] ->
     ~ exists pre post, bg = pre ++ code ++ post)
  /\ ((exists pre post, bg = pre ++ "#667eea" ++ post) ->
      Theme.getThemeColors bg
      = {| Theme.primary := "#667eea"; Theme.secondary := "#764ba2";
           Theme.accent := "#9b7ce8" |}).
Proof.
  split.
  - unfold Theme.getThemeColors. split.
    + intros H code Hcode Hocc. apply includes_spec in Hocc.
      simpl in Hcode.
      destruct Hcode as [<-|[<-|[<-|[<-|[<-|[]]]]]];
        rewrite ?Hocc in H;
        repeat match type of H with
               | (if ?c then _ else _) = _ => destruct c; try discriminate H
               end;
        try discriminate H.
    + intros H.
      assert (N : forall code,
                 In code ["#667eea"; "#f093fb"; "#4facfe"; "#43e97b"; "#fa709a"] ->
                 Theme.includes bg code = false).
      { intros code Hcode. destruct (Theme.includes bg code) eqn:E; [|reflexivity].
        exfalso. apply (H code Hcode). now apply includes_spec. }
      rewrite !N by (simpl; tauto). reflexivity.
  - intros H. apply includes_spec in H. unfold Theme.getThemeColors.
    now rewrite H.
Qed.

Lemma getThemeColors_by_occurrence_witness :
  Theme.primary
    (Theme.getThemeColors "conic-gradient(#fa709a, #667eea)") = "#667eea".
Proof.
  destruct (getThemeColors_by_occurrence "conic-gradient(#fa709a, #667eea)")
    as [_ H].
  rewrite H; [reflexivity|].
  now exists "conic-gradient(#fa709a, ", ")".
Defined.

(** ** The card background, from any state *)

Lemma indexOf_from_absent (xs : list string) (x : string) (i : Z) :
  ~ In x xs -> indexOf_from i xs x = -1.
Proof.
  revert i; induction xs as [|y xs IH]; intros i H; simpl; [reflexivity|].
  destruct (String.eqb_spec y x) as [->|_].
  - exfalso. apply H. now left.
  - apply IH. intros Hx. apply H. now right.
Qed.

(** X3. Whatever [cardBackground] holds, [changeCardBackground] sets it to
    an entry of [backgroundOptions], never to [undefined]; from a value
    that is not in the list it goes to the first entry. *)
Theorem changeCardBackground_from_any_state (cardBackground : string) :
  (exists next,
     Dashboard.changeCardBackground cardBackground = Some next
     /\ In next Dashboard.backgroundOptions)
  /\ (~ In cardBackground Dashboard.backgroundOptions ->
      Dashboard.changeCardBackground cardBackground
      = Some Dashboard.initialCardBackground).
Proof.
  split; [apply changeCardBackground_defined|].
  intros H. unfold Dashboard.changeCardBackground, indexOf.
  now rewrite indexOf_from_absent.
Qed.

Lemma changeCardBackground_from_any_state_witness :
  Dashboard.changeCardBackground "red" = Some Dashboard.initialCardBackground.
Proof.
  destruct (changeCardBackground_from_any_state "red") as [_ H].
  apply H. simpl. intros [E|[E|[E|[E|[E|[E|[]]]]]]]; discriminate E.
Defined.

(** ** Floating elements *)

(** X4. The timer of a stat click removes the element the click added
    and, with it, every element that has the same [id] (a click in the
    same millisecond); the others stay, in order. *)
Theorem floating_remove_after_add (e : Floating.t) (prev later : list Floating.t) :
  Floating.remove e (Floating.add e prev ++ later)
  = filter (fun el => negb (Floating.id el =? Floating.id e)) (prev ++ later)
  /\ ((forall el, In el (prev ++ later) -> Floating.id el <> Floating.id e) ->
      Floating.remove e (Floating.add e prev ++ later) = (prev ++ later)%list)
  /\ (forall e', Floating.id e' = Floating.id e ->
      Floating.remove e (Floating.add e' (Floating.add e prev))
      = Floating.remove e prev
      /\ Floating.remove e' (Floating.remove e (Floating.add e' (Floating.add e prev)))
         = Floating.remove e prev).
Proof.
  assert (E : Floating.remove e (Floating.add e prev ++ later)
              = filter (fun el => negb (Floating.id el =? Floating.id e))
                  (prev ++ later)).
  { unfold Floating.remove, Floating.add.
    rewrite !filter_app. simpl. rewrite Z.eqb_refl. simpl.
    now rewrite app_nil_r. }
  split; [exact E|]. split.
  - intros H. rewrite E. apply forallb_filter_id. apply forallb_forall.
    intros el Hel. apply negb_true_iff, Z.eqb_neq. now apply H.
  - intros e' He'. unfold Floating.remove, Floating.add.
    rewrite !filter_app. simpl. rewrite He', Z.eqb_refl. simpl.
    rewrite !app_nil_r. split; [reflexivity|].
    apply forallb_filter_id. apply forallb_forall.
    intros el Hel. now apply filter_In in Hel as [_ Hel].
Qed.

Lemma floating_remove_after_add_witness :
  Floating.remove
    {| Floating.id := 1700000000001; Floating.x := (1 # 2)%Q;
       Floating.y := (3 # 4)%Q; Floating.emoji := "*" |}
    (Floating.add
       {| Floating.id := 1700000000001; Floating.x := (1 # 2)%Q;
          Floating.y := (3 # 4)%Q; Floating.emoji := "*" |}
       [ {| Floating.id := 1700000000000; Floating.x := (1 # 4)%Q;
            Floating.y := (1 # 4)%Q; Floating.emoji := "+" |} ]
     ++ [])
  = [ {| Floating.id := 1700000000000; Floating.x := (1 # 4)%Q;
         Floating.y := (1 # 4)%Q; Floating.emoji := "+" |} ].
Proof.
  destruct (floating_remove_after_add
              {| Floating.id := 1700000000001; Floating.x := (1 # 2)%Q;
                 Floating.y := (3 # 4)%Q; Floating.emoji := "*" |}
              [ {| Floating.id := 1700000000000; Floating.x := (1 # 4)%Q;
                   Floating.y := (1 # 4)%Q; Floating.emoji := "+" |} ]
              []) as (_ & H & _).
  rewrite H; [reflexivity|].
  intros el [<-|[]]. discriminate.
Defined.

(** ** The upload body *)

Lemma split_without_separator (sep : ascii) (s : string) :
  ~ In sep (list_ascii_of_string s) -> split sep s = [s].
Proof.
  induction s as [|c s IH]; simpl; intros H; [reflexivity|].
  destruct (Ascii.eqb_spec c sep) as [->|_].
  - exfalso. apply H. now left.
  - rewrite IH; [reflexivity|]. intros Hs. apply H. now right.
Qed.

Lemma split_at_separator (sep : ascii) (header rest : string) :
  ~ In sep (list_ascii_of_string header) ->
  split sep (header ++ String sep rest) = header :: split sep rest.
Proof.
  induction header as [|c header IH]; simpl; intros H.
  - now rewrite Ascii.eqb_refl.
  - destruct (Ascii.eqb_spec c sep) as [->|_].
    + exfalso. apply H. now left.
    + rewrite IH; [reflexivity|]. intros Hs. apply H. now right.
Qed.

(** X5. For a data URL [header,payload] the [file] field of the upload is
    ['data:image/png;base64,'] followed by the payload, whatever the
    header said; for a result without a comma it is
    ['data:image/png;base64,undefined']. *)
Theorem upload_form_file (env : Env) (header payload : string) :
  ~ In ","%char (list_ascii_of_string header) ->
  ~ In ","%char (list_ascii_of_string payload) ->
  hd_error (upload_form env (header ++ "," ++ payload))
  = Some ("file", "data:image/png;base64," ++ payload)
  /\ hd_error (upload_form env header)
     = Some ("file", "data:image/png;base64,undefined").
Proof.
  intros Hh Hp. unfold upload_form. split.
  - change (header ++ "," ++ payload) with (header ++ String "," payload).
    rewrite (split_at_separator _ _ _ Hh), (split_without_separator _ _ Hp).
    reflexivity.
  - rewrite (split_without_separator _ _ Hh). reflexivity.
Qed.

Lemma upload_form_file_witness :
  hd_error (upload_form Scenarios.happy "data:image/jpeg;base64,/9j/4AAQ")
  = Some ("file", "data:image/png;base64,/9j/4AAQ").
Proof.
  destruct (upload_form_file Scenarios.happy "data:image/jpeg;base64" "/9j/4AAQ")
    as [H _].
  - simpl. intuition discriminate.
  - simpl. intuition discriminate.
  - exact H.
Defined.

(** ** The text of the cast *)

Lemma length16_app (a b : string) :
  length16 (a ++ b) = (length16 a + length16 b)%nat.
Proof. induction a as [|c a IH]; simpl; [reflexivity | rewrite IH; lia]. Qed.

Lemma units_of_continuation (c : ascii) :
  is_continuation c = true -> units_of c = 0%nat.
Proof.
  destruct c as [b0 b1 b2 b3 b4 b5 b6 b7]. unfold is_continuation, units_of.
  now intros ->.
Qed.

Lemma units_of_lead (c : ascii) :
  is_continuation c = false -> units_of c = 1%nat \/ units_of c = 2%nat.
Proof.
  destruct c as [b0 b1 b2 b3 b4 b5 b6 b7]. unfold is_continuation, units_of.
  intros ->. destruct (b7 && b6 && b5 && b4); tauto.
Qed.

(** The bytes [10xxxxxx] are continuation bytes. *)
Lemma units_of_trailing (n : N) :
  (128 <= n < 192)%N -> units_of (ascii_of_N n) = 0%nat.
Proof.
  intros H. destruct n as [|p]; [lia|].
  do 8 (try (destruct p as [p|p|]; try lia; try reflexivity)).
Qed.

Lemma length16_high_surrogate (c0 c1 c2 : ascii) :
  length16 (high_surrogate c0 c1 c2) = 1%nat.
Proof.
  unfold high_surrogate. cbv zeta.
  set (v := (N_of_ascii c0 mod 8 * 256 + N_of_ascii c1 mod 64 * 4
             + N_of_ascii c2 mod 64 / 16 - 64)%N).
  assert (Hv : (v < 2048)%N).
  { subst v.
    assert (N_of_ascii c0 mod 8 < 8)%N by (apply N.mod_upper_bound; lia).
    assert (N_of_ascii c1 mod 64 < 64)%N by (apply N.mod_upper_bound; lia).
    assert (N_of_ascii c2 mod 64 / 16 < 4)%N.
    { apply N.Div0.div_lt_upper_bound. apply N.mod_upper_bound. lia. }
    lia. }
  assert (Hhigh : (v / 64 < 32)%N) by (apply N.Div0.div_lt_upper_bound; lia).
  assert (Hlow : (v mod 64 < 64)%N) by (apply N.mod_upper_bound; lia).
  cbn [length16].
  rewrite (units_of_trailing (160 + v / 64)), (units_of_trailing (128 + v mod 64)).
  - reflexivity.
  - generalize dependent (v mod 64)%N. intros; split; lia.
  - generalize dependent (v / 64)%N. intros; split; lia.
Qed.

(** [s.substring(0, n).length] is [n] when [s] has that many code units. *)
Lemma length16_take16 (s : string) (n : nat) :
  (n <= length16 s)%nat -> length16 (take16 n s) = n.
Proof.
  revert n; induction s as [|c s IH]; intros n H; cbn [length16 take16] in *.
  - lia.
  - destruct (is_continuation c) eqn:Ec.
    + apply units_of_continuation in Ec. cbn [length16].
      rewrite Ec in *. rewrite IH; lia.
    + apply units_of_lead in Ec.
      destruct (Nat.leb_spec (units_of c) n) as [Hle|Hlt].
      * cbn [length16]. rewrite IH; lia.
      * destruct n as [|n]; [reflexivity|].
        rewrite length16_high_surrogate. lia.
Qed.

Lemma append_associative (a b c : string) : ((a ++ b) ++ c = a ++ b ++ c)%string.
Proof. induction a as [|x a IH]; simpl; [reflexivity | now rewrite IH]. Qed.

(** X6. A bio that is not empty is quoted in the cast between the profile
    lines and the closing line, after a blank line and in double quotes:
    whole when it has at most 100 UTF-16 code units, and otherwise cut to
    its first 97 code units followed by ['...'], 100 code units in all.
    A character of two code units that straddles the cut leaves its high
    surrogate. *)
Theorem shareText_bio_truncated (env : Env) (user : DashboardUser.t)
  (bio : string) :
  bio <> ""%string ->
  let quoted := if (100 <? length16 bio)%nat
                then take16 97 bio ++ "..." else bio in
  let closing :=
    newline ++ newline
    ++ "Check out your own Farcaster ID card! ðŸª„ #Farcaster #Web3 #Identity" in
  (length16 quoted <= 100)%nat
  /\ ((100 < length16 bio)%nat -> length16 quoted = 100%nat)
  /\ exists head,
       shareText env (Some (Kinds.with_bio user None)) = head ++ closing
       /\ shareText env (Some (Kinds.with_bio user (Some bio)))
          = head ++ newline ++ newline ++ dquote ++ quoted ++ dquote ++ closing.
Proof.
  intros Hbio quoted closing.
  assert (Hcut : (100 < length16 bio)%nat -> length16 quoted = 100%nat).
  { intros H. subst quoted. apply Nat.ltb_lt in H as E. rewrite E.
    rewrite length16_app, length16_take16 by lia. reflexivity. }
  split; [|split; [exact Hcut|]].
  - destruct (Nat.lt_ge_cases 100 (length16 bio)) as [H|H].
    + rewrite Hcut; lia.
    + subst quoted. apply Nat.ltb_ge in H as E. now rewrite E.
  - unfold shareText. cbn [Kinds.with_bio DashboardUser.bio DashboardUser.neynarScore
      DashboardUser.followersCount DashboardUser.followingCount DashboardUser.fid
      DashboardUser.username DashboardUser.location].
    apply String.eqb_neq in Hbio. rewrite Hbio.
    fold quoted.
    match goal with
    | |- exists head, (?h ++ _)%string = _ /\ _ => generalize h; intros head
    end.
    exists head. split; [reflexivity|].
    rewrite (append_associative head). f_equal.
    unfold newline, dquote. cbn [append]. do 3 f_equal.
    apply append_associative.
Qed.

Lemma shareText_bio_truncated_witness :
  exists head closing,
    shareText Scenarios.happy
      (Some (Kinds.with_bio Scenarios.alice (Some "Builder of small things on Farcaster, writing about protocols, identity and the long road ahead 🚀 to a decentralised social web.")))
    = head ++ newline ++ newline ++ dquote
      ++ "Builder of small things on Farcaster, writing about protocols, identity and the long road ahead "
      ++ String (ascii_of_N 237) (String (ascii_of_N 160)
           (String (ascii_of_N 189) "..."))
      ++ dquote ++ closing.
Proof.
  destruct (shareText_bio_truncated Scenarios.happy Scenarios.alice
              "Builder of small things on Farcaster, writing about protocols, identity and the long road ahead 🚀 to a decentralised social web.")
    as (_ & _ & head & _ & H).
  - discriminate.
  - exists head. eexists. rewrite H. reflexivity.
Defined.

(** ** Casts responses out of shape *)

Lemma map_result_throws {A B : Type} (f : A -> result B) (xs : list A) (x : A)
  (e : JsError) :
  In x xs -> f x = Throw e -> exists e', map_result f xs = Throw e'.
Proof.
  induction xs as [|y xs IH]; simpl; [contradiction|].
  intros [->|Hin] Hx.
  - rewrite Hx. now exists e.
  - destruct (f y); [|eauto].
    destruct (IH Hin Hx) as [e' ->]. now exists e'.
Qed.

Lemma map_result_length {A B : Type} (f : A -> result B) (xs : list A)
  (ys : list B) :
  map_result f xs = Ok ys -> List.length ys = List.length xs.
Proof.
  revert ys; induction xs as [|x xs IH]; intros ys; simpl.
  - intros H; now injection H as <-.
  - destruct (f x); [|discriminate].
    destruct (map_result f xs) as [ys'|]; [|discriminate].
    intros H; injection H as <-. simpl. f_equal. now apply IH.
Qed.

(** X7. A casts response without [result] or without [result.casts] gives
    no casts; a [casts] that is not an array, or an array with a [null]
    entry, makes the processing throw (all the casts are lost); an array
    without [null] entries gives one cast per entry. *)
Theorem processCasts_shapes (castsData : JsVal) :
  nullish castsData = false ->
  let casts := Spec.field ["result"; "casts"] castsData in
  (nullish casts = true -> processCasts castsData = Ok [])
  /\ (forall items,
        casts = JsArr items ->
        (In JsNull items \/ In JsUndefined items) ->
        exists e, processCasts castsData = Throw e)
  /\ (forall items,
        casts = JsArr items ->
        forallb (fun c => negb (nullish c)) items = true ->
        exists processed,
          processCasts castsData = Ok processed
          /\ List.length processed = List.length items)
  /\ (nullish casts = false ->
      (forall items, casts <> JsArr items) ->
      exists e, processCasts castsData = Throw e).
Proof.
  intros Hd. unfold processCasts, Spec.field. cbn [fold_left].
  rewrite Hd, (opt_prop_defined "result" castsData Hd).
  generalize (opt_prop "casts" (prop "result" castsData)). intros casts.
  cbv zeta. repeat split.
  - destruct casts; try discriminate; reflexivity.
  - intros items -> [H|H];
      apply (map_result_throws processCast items _ "TypeError" H); reflexivity.
  - intros items -> H.
    assert (D : exists processed, map_result processCast items = Ok processed).
    { induction items as [|c items IH]; simpl; [now eexists|].
      simpl in H. apply andb_true_iff in H as [Hc Hrest].
      destruct (IH Hrest) as [processed ->].
      unfold processCast. apply negb_true_iff in Hc. rewrite Hc.
      now eexists. }
    destruct D as [processed Hp]. exists processed.
    split; [exact Hp | exact (map_result_length _ _ _ Hp)].
  - intros Hn Harr. destruct casts; try discriminate Hn; eauto.
    exfalso. now apply (Harr items).
Qed.

Lemma processCasts_shapes_witness :
  processCasts (JsObj [("result", JsObj [])]) = Ok []
  /\ exists e,
       processCasts
         (JsObj [("result", JsObj [("casts", JsArr [JsObj [("hash", JsStr "0xa1")]; JsNull])])])
       = Throw e.
Proof.
  split.
  - destruct (processCasts_shapes (JsObj [("result", JsObj [])]) eq_refl)
      as (H & _). apply H. reflexivity.
  - destruct (processCasts_shapes
                (JsObj [("result", JsObj [("casts", JsArr [JsObj [("hash", JsStr "0xa1")]; JsNull])])])
                eq_refl) as (_ & H & _).
    apply (H [JsObj [("hash", JsStr "0xa1")]; JsNull] eq_refl).
    left. simpl. tauto.
Defined.

(** X8. The casts step either stores casts or changes nothing: when it
    returns normally [recentCasts] has been set to a list (the empty one
    after a response that is not [ok]); when it throws, no state has been
    set. *)
Theorem loadNeynarData_casts_all_or_nothing (env : Env) (apiKey : string)
  (fid : Z) :
  let run := loadNeynarData_casts env apiKey fid in
  match outcome run with
  | Ok _ =>
      exists casts,
        In (SetRecentCasts (Some casts)) (trace run)
        /\ (forall castsRes,
              fetch env (casts_request apiKey fid) = Ok castsRes ->
              Response.ok castsRes = false -> casts = [])
  | Throw _ => filter Kinds.is_state_change (trace run) = []
  end.
Proof.
  unfold loadNeynarData_casts.
  destruct (fetch env (casts_request apiKey fid)) as [castsRes|e]; cbn;
    [|reflexivity].
  destruct (Response.ok castsRes) eqn:Hok; cbn.
  - destruct (Response.json castsRes) as [castsData|e]; cbn; [|reflexivity].
    destruct (processCasts castsData) as [casts|e]; cbn; [|reflexivity].
    exists casts. split; [tauto|].
    intros r Hr. injection Hr as <-. congruence.
  - destruct (Response.text castsRes) as [errorText|e]; cbn; [|reflexivity].
    exists []. split; [tauto | reflexivity].
Qed.

Lemma loadNeynarData_casts_all_or_nothing_witness :
  exists casts,
    In (SetRecentCasts (Some casts))
       (trace (loadNeynarData_casts Scenarios.refusedUpload "neynar-key" 12345))
    /\ casts = [].
Proof.
  pose proof (loadNeynarData_casts_all_or_nothing Scenarios.refusedUpload
                "neynar-key" 12345) as H.
  cbn in H. destruct H as (casts & Hin & Hempty).
  exists casts. split; [exact Hin|].
  exact (Hempty Scenarios.refused eq_refl eq_refl).
Defined.

(** ** Reaction values that are not numbers *)

Lemma add_to_string (s : string) (v : JsVal) : exists s', add (JsStr s) v = JsStr s'.
Proof. unfold add. simpl. eauto. Qed.

Lemma add_stringlike (sum v : JsVal) :
  stringlike v = true -> exists s, add sum v = JsStr s.
Proof. intros H. unfold add. rewrite H, orb_true_r. eauto. Qed.

Lemma totalReactions_stays_string (casts : list RecentCast.t) (s : string) :
  exists s',
    fold_left
      (fun sum cast =>
         add (add sum (or (RecentCast.likes cast) (JsNum 0)))
             (or (RecentCast.recasts cast) (JsNum 0)))
      casts (JsStr s) = JsStr s'.
Proof.
  revert s; induction casts as [|cast casts IH]; intros s; simpl; [eauto|].
  destruct (add_to_string s (or (RecentCast.likes cast) (JsNum 0))) as [s1 ->].
  destruct (add_to_string s1 (or (RecentCast.recasts cast) (JsNum 0))) as [s2 ->].
  apply IH.
Qed.

Lemma totalReactions_from_any (casts : list RecentCast.t) (acc : JsVal) :
  Exists
    (fun cast =>
       stringlike (RecentCast.likes cast) && truthy (RecentCast.likes cast) = true
       \/ stringlike (RecentCast.recasts cast) && truthy (RecentCast.recasts cast)
          = true)
    casts ->
  exists s,
    fold_left
      (fun sum cast =>
         add (add sum (or (RecentCast.likes cast) (JsNum 0)))
             (or (RecentCast.recasts cast) (JsNum 0)))
      casts acc = JsStr s.
Proof.
  intros H; revert acc.
  induction H as [cast casts H|cast casts _ IH]; intros acc; simpl.
  - assert (S : exists s,
               add (add acc (or (RecentCast.likes cast) (JsNum 0)))
                   (or (RecentCast.recasts cast) (JsNum 0)) = JsStr s).
    { destruct H as [H|H]; apply andb_true_iff in H as [Hs Ht].
      - unfold or at 1. rewrite Ht.
        destruct (add_stringlike acc _ Hs) as [s ->]. apply add_to_string.
      - unfold or at 2. rewrite Ht. now apply add_stringlike. }
    destruct S as [s ->]. apply totalReactions_stays_string.
  - apply IH.
Qed.

(** X9. [totalReactions] is a sum only of numbers: as soon as one cast has
    for [likes] or [recasts] an array, an object or a non-empty string
    (the API's [reactions.likes] is a list of users), the total is a
    string, the concatenation [+] makes of it. *)
Theorem totalReactions_not_a_sum (casts : list RecentCast.t) :
  Exists
    (fun cast =>
       stringlike (RecentCast.likes cast) && truthy (RecentCast.likes cast) = true
       \/ stringlike (RecentCast.recasts cast) && truthy (RecentCast.recasts cast)
          = true)
    casts ->
  exists s, totalReactions casts = JsStr s.
Proof. intros H. now apply totalReactions_from_any. Qed.

Lemma totalReactions_not_a_sum_witness :
  exists s,
    totalReactions
      [ {| RecentCast.hash := JsStr "0xa1"; RecentCast.text := JsStr "gm";
           RecentCast.timestamp := JsStr "2024-05-01T08:00:00Z";
           RecentCast.likes := JsArr [JsObj [("fid", JsNum 3)]];
           RecentCast.recasts := JsNum 2 |} ] = JsStr s.
Proof.
  apply totalReactions_not_a_sum. left. left. reflexivity.
Defined.

(** ** What the upload sends, and when *)

(** X10. [uploadToCloudinary] sends a request only when the configuration
    is present and the card was rasterized and read as a data URL; the
    request is then the POST of that image to the configured cloud.
    Without configuration it does nothing but warn. *)
Theorem uploadToCloudinary_request (env : Env) (element : Element) :
  (forall request,
     In (Fetch request) (trace (uploadToCloudinary env element)) ->
     Spec.configured env = true
     /\ exists base64Data,
          Spec.encoded env element = Some base64Data
          /\ request = upload_request env base64Data
          /\ Request.method request = Some "POST"
          /\ Request.url request
             = "https://api.cloudinary.com/v1_1/"
               ++ template_env (CLOUDINARY_CLOUD_NAME env) ++ "/image/upload")
  /\ (Spec.configured env = false ->
      uploadToCloudinary env element
      = (Ok JsNull, [Console Warn "Cloudinary configuration missing"])).
Proof.
  unfold uploadToCloudinary, Spec.configured, Spec.encoded, Spec.rasterized,
    Spec.card.
  destruct (env_truthy (CLOUDINARY_CLOUD_NAME env));
    destruct (env_truthy (CLOUDINARY_UPLOAD_PRESET env)); cbn [negb orb andb];
    try (split; [intros request [H|[]]; discriminate H | reflexivity]).
  split; [|discriminate].
  destruct (querySelector env element ".fc-idcard") as [cardElement|];
    [|intros request [H|[]]; discriminate H].
  rewrite generatePngBlob_branches.
  unfold Spec.dispatch, Spec.via_html2canvas, Spec.via_library.
  split_answers;
    intros request Hin; cbn in Hin;
    repeat match goal with
           | H : _ \/ _ |- _ => destruct H as [H|H]
           | H : False |- _ => destruct H
           | H : Fetch _ = Fetch _ |- _ => injection H as <-
           | H : _ = Fetch _ |- _ => discriminate H
           end;
    (split; [reflexivity|]); eexists; repeat split.
Qed.

Lemma uploadToCloudinary_request_witness :
  exists base64Data,
    Spec.encoded Scenarios.happy Scenarios.root = Some base64Data
    /\ In (Fetch (upload_request Scenarios.happy base64Data))
          (trace (uploadToCloudinary Scenarios.happy Scenarios.root)).
Proof.
  destruct (uploadToCloudinary_request Scenarios.happy Scenarios.root) as [H _].
  destruct (H (upload_request Scenarios.happy "data:image/png;base64,iVBORw0KGgo="))
    as (_ & base64Data & He & Hr & _).
  - cbn. tauto.
  - exists base64Data. split; [exact He|]. rewrite <- Hr. cbn. tauto.
Defined.


(** ** When [generatePngBlob] rejects *)

(** X11. [generatePngBlob] rejects in one situation only: on an
    html2canvas path, html2canvas resolved and [canvas.toBlob] threw.
    With ['html-to-image'] or ['dom-to-image'] it never rejects. *)
Theorem generatePngBlob_rejection (env : Env) (element : Element) :
  (forall e,
     outcome (generatePngBlob env element) = Throw e <->
     (PNG_METHOD env =? "html-to-image")%string = false
     /\ (PNG_METHOD env =? "dom-to-image")%string = false
     /\ exists c,
          html2canvas env element
            (if (PNG_METHOD env =? "html2canvas")%string
             then html2canvas_options else fallback_options) = Ok c
          /\ toBlob env c "image/png" 1 = Throw e)
  /\ (PNG_METHOD env = "html-to-image" \/ PNG_METHOD env = "dom-to-image" ->
      exists blob, outcome (generatePngBlob env element) = Ok blob).
Proof.
  split; [intros e; apply generatePngBlob_rejects|].
  intros H.
  destruct (outcome (generatePngBlob env element)) as [blob|e] eqn:E;
    [now exists blob|].
  apply generatePngBlob_rejects in E as (H1 & H2 & _).
  destruct H as [H|H]; rewrite H in *; discriminate.
Qed.

Lemma generatePngBlob_rejection_witness :
  exists blob,
    outcome
      (generatePngBlob
         (Scenarios.browser "dom-to-image" (Throw "SecurityError")
            (Ok Scenarios.accepted))
         Scenarios.cardElement) = Ok blob.
Proof.
  destruct (generatePngBlob_rejection
              (Scenarios.browser "dom-to-image" (Throw "SecurityError")
                 (Ok Scenarios.accepted))
              Scenarios.cardElement) as [_ H].
  apply H. right. reflexivity.
Defined.

(** ** [handleShare], when it runs *)

(** The upload changes no state, shows no alert and composes no cast. *)
Lemma uploadToCloudinary_quiet (env : Env) (element : Element) :
  let t := trace (uploadToCloudinary env element) in
  filter Kinds.is_state_change t = []
  /\ filter Kinds.is_alert t = []
  /\ filter Kinds.is_compose t = [].
Proof.
  unfold uploadToCloudinary.
  destruct (env_truthy (CLOUDINARY_CLOUD_NAME env));
    destruct (env_truthy (CLOUDINARY_UPLOAD_PRESET env)); cbn [negb orb andb];
    try (cbn; tauto).
  destruct (querySelector env element ".fc-idcard") as [cardElement|];
    [|cbn; tauto].
  rewrite generatePngBlob_branches.
  unfold Spec.dispatch, Spec.via_html2canvas, Spec.via_library.
  split_answers; cbn; tauto.
Qed.

(** X12. When it runs, [handleShare] never rejects, sets [sharing] to true
    and back to false and touches no other state, and shows exactly one
    alert, whether or not the upload or [composeCast] failed. *)
Theorem handleShare_always_finishes (env : Env) (user : option DashboardUser.t)
  (cardRef : option Element) :
  let run := handleShare env false user cardRef in
  outcome run = Ok tt
  /\ filter Kinds.is_state_change (trace run)
     = [SetSharing true; SetSharing false]
  /\ List.length (filter Kinds.is_alert (trace run)) = 1%nat.
Proof.
  unfold handleShare. cbv zeta.
  generalize (shareText env user). intros text.
  destruct cardRef as [current|].
  - pose proof (uploadToCloudinary_quiet env current) as (Q1 & Q2 & Q3).
    destruct (uploadToCloudinary env current) as [[url|e] t]; cbn in Q1, Q2, Q3;
      cbn; [destruct (truthy url); destruct user as [user|]; cbn|];
      match goal with
      | |- context [composeCast ?en ?tx ?embeds] =>
          destruct (composeCast en tx embeds) as [[]|?]
      end; cbn;
      rewrite ?filter_app, ?Q1, ?Q2, ?Q3; cbn; tauto.
  - cbn.
    destruct (composeCast env text [JsStr (MINIAPP_URL env)]) as [[]|?]; cbn;
      tauto.
Qed.

(** X13. When it runs, [handleShare] calls [composeCast] exactly once, with
    the share text; a failed upload never prevents the cast.  The embeds
    always hold the mini app URL, preceded by the image URL (and followed
    by the user's handle) exactly when the upload returned one. *)
Theorem handleShare_composes_once (env : Env) (user : option DashboardUser.t)
  (cardRef : option Element) :
  filter Kinds.is_compose (trace (handleShare env false user cardRef))
  = [ComposeCast (shareText env user) (Kinds.share_embeds env user cardRef)]
  /\ In (JsStr (MINIAPP_URL env)) (Kinds.share_embeds env user cardRef).
Proof.
  unfold handleShare, Kinds.share_embeds. cbv zeta.
  generalize (shareText env user). intros text.
  destruct cardRef as [current|].
  - pose proof (uploadToCloudinary_quiet env current) as (Q1 & Q2 & Q3).
    destruct (uploadToCloudinary env current) as [[url|e] t]; cbn in Q1, Q2, Q3;
      cbn; [destruct (truthy url); destruct user as [user|]; cbn|];
      match goal with
      | |- context [composeCast ?en ?tx ?embeds] =>
          destruct (composeCast en tx embeds) as [[]|?]
      end; cbn;
      rewrite ?filter_app, ?Q1, ?Q2, ?Q3; cbn; tauto.
  - cbn.
    destruct (composeCast env text [JsStr (MINIAPP_URL env)]) as [[]|?]; cbn;
      tauto.
Qed.

(** ** [loadNeynarData] as a whole *)

(** X14. Without an API key [loadNeynarData] sends no request; called with
    [showLoading] (as [handleRefreshData] does) it has by then reset
    [recentCasts] to [undefined] and never sets it again: the Recent
    Activity list stays on its loading item. *)
Theorem refresh_without_key_keeps_loading (env : Env) (user : DashboardUser.t)
  (recentCasts : option (list RecentCast.t)) (toLocaleString : JsVal -> string) :
  env_truthy (NEYNAR_API_KEY env) = false ->
  let run := Handlers.handleRefreshData env (Some user) in
  outcome run = Ok tt
  /\ filter Handlers.is_fetch (trace run) = []
  /\ Handlers.recentCasts_after recentCasts (trace run) = None
  /\ Dashboard.activityList toLocaleString
       (Handlers.recentCasts_after recentCasts (trace run))
     = [Dashboard.loadingItem].
Proof.
  intros H. unfold Handlers.handleRefreshData, Handlers.loadNeynarData.
  rewrite H. cbn. repeat split.
Qed.

Lemma refresh_without_key_keeps_loading_witness :
  Handlers.recentCasts_after (Some [])
    (trace (Handlers.handleRefreshData Cases.withoutKey (Some Scenarios.alice)))
  = None.
Proof.
  destruct (refresh_without_key_keeps_loading Cases.withoutKey Scenarios.alice
              (Some []) (fun _ => "") eq_refl) as (_ & _ & H & _).
  exact H.
Defined.



(** X16. A profile response that is not [ok] is only logged: the casts
    step runs after it as if nothing had happened.  A profile request
    that rejects ends [loadNeynarData] there, before any casts request. *)
Theorem loadNeynarData_profile_failure (env : Env) (fid : Z) :
  env_truthy (NEYNAR_API_KEY env) = true ->
  let apiKey := template_env (NEYNAR_API_KEY env) in
  (forall userRes errorText,
     fetch env (Handlers.user_request apiKey fid) = Ok userRes ->
     Response.ok userRes = false ->
     Response.text userRes = Ok errorText ->
     Handlers.loadNeynarData env fid false
     = (outcome (loadNeynarData_casts env apiKey fid),
        [ Handlers.Base (Fetch (Handlers.user_request apiKey fid));
          Handlers.Base ResponseText;
          Handlers.Base (Console Warn "Failed to fetch Neynar user data") ]
        ++ map Handlers.Base (trace (loadNeynarData_casts env apiKey fid)))%list)
  /\ (forall e,
        fetch env (Handlers.user_request apiKey fid) = Throw e ->
        Handlers.loadNeynarData env fid false
        = (Throw e, [Handlers.Base (Fetch (Handlers.user_request apiKey fid))])).
Proof.
  intros H apiKey. unfold Handlers.loadNeynarData. rewrite H. cbn [negb].
  fold apiKey. unfold Handlers.loadNeynarData_profile. split.
  - intros userRes errorText Hf Hok Ht. rewrite Hf. cbn. rewrite Hok. cbn.
    rewrite Ht. cbn. unfold Handlers.lift.
    destruct (loadNeynarData_casts env apiKey fid) as [r t]. reflexivity.
  - intros e Hf. rewrite Hf. reflexivity.
Qed.

Lemma loadNeynarData_profile_failure_witness :
  List.length
    (filter Handlers.is_fetch
       (trace (Handlers.loadNeynarData Scenarios.refusedUpload 12345 false)))
  = 2%nat.
Proof.
  destruct (loadNeynarData_profile_failure Scenarios.refusedUpload 12345 eq_refl)
    as [H _].
  rewrite (H Scenarios.refused "Upload preset not found" eq_refl eq_refl eq_refl).
  reflexivity.
Defined.

(** ** [init] *)

Lemma loading_after_app (b : bool) (t1 t2 : list Handlers.Event) :
  Handlers.loading_after b (t1 ++ t2)
  = Handlers.loading_after (Handlers.loading_after b t1) t2.
Proof.
  revert b; induction t1 as [|ev t1 IH]; intros b; simpl; [reflexivity|].
  destruct ev; apply IH.
Qed.

Lemma error_after_app (e : option string) (t1 t2 : list Handlers.Event) :
  Handlers.error_after e (t1 ++ t2)
  = Handlers.error_after (Handlers.error_after e t1) t2.
Proof.
  revert e; induction t1 as [|ev t1 IH]; intros e; simpl; [reflexivity|].
  destruct ev; apply IH.
Qed.

Lemma loading_after_base (b : bool) (t : list Event) :
  Handlers.loading_after b (map Handlers.Base t) = b.
Proof. induction t; simpl; auto. Qed.

Lemma error_after_base (e : option string) (t : list Event) :
  Handlers.error_after e (map Handlers.Base t) = e.
Proof. induction t; simpl; auto. Qed.

(** [loadNeynarData] sets neither [loading] nor [error]. *)
Lemma loadNeynarData_keeps_loading_error (env : Env) (fid : Z)
  (showLoading b : bool) (e : option string) :
  Handlers.loading_after b (trace (Handlers.loadNeynarData env fid showLoading)) = b
  /\ Handlers.error_after e (trace (Handlers.loadNeynarData env fid showLoading)) = e.
Proof.
  unfold Handlers.loadNeynarData.
  destruct (env_truthy (NEYNAR_API_KEY env)); cbn [negb];
    [|destruct showLoading; split; reflexivity].
  set (apiKey := template_env (NEYNAR_API_KEY env)).
  assert (P : forall b e,
             Handlers.loading_after b
               (trace (Handlers.loadNeynarData_profile env apiKey fid)) = b
             /\ Handlers.error_after e
                  (trace (Handlers.loadNeynarData_profile env apiKey fid)) = e).
  { intros b' e'.
    unfold Handlers.loadNeynarData_profile, Handlers.first_user.
    destruct (fetch env (Handlers.user_request apiKey fid)) as [userRes|?]; cbn;
      [|split; reflexivity].
    destruct (Response.ok userRes); cbn.
    - destruct (Response.json userRes) as [data|?]; cbn; [|split; reflexivity].
      destruct (nullish data); cbn; [split; reflexivity|].
      destruct (truthy (Profile.opt_first (prop "users" data)));
        split; reflexivity.
    - destruct (Response.text userRes); split; reflexivity. }
  unfold Handlers.lift.
  destruct (Handlers.loadNeynarData_profile env apiKey fid) as [[[]|x] tp];
    destruct (loadNeynarData_casts env apiKey fid) as [rc tc];
    specialize (P b e); cbn in P; destruct P as [P1 P2];
    destruct showLoading; cbn;
    rewrite ?loading_after_app, ?error_after_app, ?loading_after_base,
      ?error_after_base, ?P1, ?P2; cbn;
    rewrite ?loading_after_base, ?error_after_base; split; reflexivity.
Qed.

(** X17. [init] never rejects and always ends the loading state.  It sets
    the error message exactly when [loadNeynarData] rejected; so the
    component then shows the error screen, and otherwise the dashboard
    (or the no-user screen), never the loading screen. *)
Theorem init_ends_loading (env : Env) :
  let run := Handlers.init env in
  let failed := match outcome (Handlers.loadNeynarData env Handlers.ctx_fid false) with
                | Ok _ => false
                | Throw _ => true
                end in
  outcome run = Ok tt
  /\ hd_error (trace run) = Some (Handlers.SetUserTo Handlers.baseUser)
  /\ Handlers.loading_after true (trace run) = false
  /\ Handlers.error_after None (trace run)
     = (if failed
        then Some "Failed to load data from Farcaster Mini App context."
        else None)
  /\ forall (U : Type) (user : option U),
       Handlers.render (Handlers.loading_after true (trace run))
         (Handlers.error_after None (trace run)) user
       = if failed
         then Handlers.ErrorScreen
                "Failed to load data from Farcaster Mini App context."
         else match user with
              | Some user => Handlers.DashboardScreen user
              | None => Handlers.NoUserScreen
              end.
Proof.
  cbv zeta. unfold Handlers.init. cbn [Handlers.inMiniApp negb].
  pose proof (loadNeynarData_keeps_loading_error env Handlers.ctx_fid false) as K.
  destruct (Handlers.loadNeynarData env Handlers.ctx_fid false) as [[[]|x] t];
    cbn in K |- *;
    rewrite ?loading_after_app, ?error_after_app;
    destruct (K true None) as [K1 K2]; rewrite ?K1, ?K2; cbn;
    repeat split; intros U [user|]; reflexivity.
Qed.

(** ** [handleDownloadCard] *)

(** Case analysis on the answers of a download. *)
Ltac split_download :=
  unfold Handlers.handleDownloadCard, Handlers.lift, secure_url;
  match goal with
  | |- context [match ?cardRef with Some _ => _ | None => _ end] =>
      destruct cardRef as [current|]
  end; [|cbn];
  [destruct (env_truthy (CLOUDINARY_CLOUD_NAME _));
   destruct (env_truthy (CLOUDINARY_UPLOAD_PRESET _)); cbn [negb orb andb];
   [rewrite generatePngBlob_branches;
    unfold Spec.dispatch, Spec.via_html2canvas, Spec.via_library;
    split_answers | cbn .. ] | ].

(** X18. [handleDownloadCard] never rejects and always tells the user how
    it went: every run shows exactly one alert.  It sends at most one
    request, writes to the clipboard at most once, and changes no state. *)
Theorem handleDownloadCard_one_alert (env : Env)
  (writeText : JsVal -> result unit) (user : option DashboardUser.t)
  (cardRef : option Element) :
  let run := Handlers.handleDownloadCard env writeText user cardRef in
  outcome run = Ok tt
  /\ List.length (filter Handlers.is_alert (trace run)) = 1%nat
  /\ (List.length (filter Handlers.is_fetch (trace run)) <= 1)%nat
  /\ (List.length (filter Handlers.is_write (trace run)) <= 1)%nat
  /\ filter Handlers.is_state_change (trace run) = [].
Proof.
  cbv zeta. split_download; cbn; repeat split; try lia.
Qed.

(** X19. The clipboard is written only after an [ok] upload response whose
    body was read as JSON, and what is written is the [secure_url] of that
    body. *)
Theorem handleDownloadCard_clipboard (env : Env)
  (writeText : JsVal -> result unit) (user : option DashboardUser.t)
  (cardRef : option Element) (text : JsVal) :
  In (Handlers.WriteText text)
     (trace (Handlers.handleDownloadCard env writeText user cardRef)) ->
  exists request uploadResponse uploadData,
    In (Handlers.Base (Fetch request))
       (trace (Handlers.handleDownloadCard env writeText user cardRef))
    /\ fetch env request = Ok uploadResponse
    /\ Response.ok uploadResponse = true
    /\ Response.json uploadResponse = Ok uploadData
    /\ text = prop "secure_url" uploadData.
Proof.
  split_download; cbn; intros Hin;
    repeat match goal with
           | H : _ \/ _ |- _ => destruct H as [H|H]
           | H : False |- _ => destruct H
           | H : Handlers.WriteText _ = Handlers.WriteText _ |- _ =>
               injection H as <-
           | H : _ = Handlers.WriteText _ |- _ => discriminate H
           end.
  all: match goal with
       | Hf : fetch ?e ?req = Ok ?r |- _ =>
           exists req, r
       end.
  all: eexists; repeat split; try eassumption; cbn; tauto.
Qed.

Lemma handleDownloadCard_clipboard_witness :
  exists uploadData,
    Response.json Scenarios.accepted = Ok uploadData
    /\ JsStr "https://res.cloudinary.com/demo/image/upload/card.png"
       = prop "secure_url" uploadData.
Proof.
  destruct (handleDownloadCard_clipboard Scenarios.happy (fun _ => Ok tt)
              (Some Scenarios.alice) (Some Scenarios.root)
              (JsStr "https://res.cloudinary.com/demo/image/upload/card.png"))
    as (request & uploadResponse & uploadData & _ & Hf & _ & Hj & Ht).
  - cbn. tauto.
  - exists uploadData. injection Hf as <-. split; assumption.
Defined.

(** X20. The two pipelines capture different elements.  With Cloudinary
    configured, each rasterizes one element, once, whichever library
    [PNG_METHOD] selects: the download the element of [cardRef] itself,
    the upload for a share the [.fc-idcard] element found inside it (and
    nothing when there is none).  Without the configuration neither
    rasterizes anything. *)
Theorem captured_elements (env : Env) (writeText : JsVal -> result unit)
  (user : option DashboardUser.t) (current : Element) :
  let downloaded :=
    Kinds.rasterized
      (Kinds.base_events
         (trace (Handlers.handleDownloadCard env writeText user (Some current)))) in
  let shared := Kinds.rasterized (trace (uploadToCloudinary env current)) in
  downloaded = (if Spec.configured env then [current] else [])
  /\ shared = (if Spec.configured env
               then match querySelector env current ".fc-idcard" with
                    | Some cardElement => [cardElement]
                    | None => []
                    end
               else [])
  /\ forall cardElement,
       Spec.configured env = true ->
       querySelector env current ".fc-idcard" = Some cardElement ->
       cardElement <> current ->
       downloaded <> shared.
Proof.
  cbv zeta.
  assert (Hdown :
    Kinds.rasterized
      (Kinds.base_events
         (trace (Handlers.handleDownloadCard env writeText user (Some current))))
    = if Spec.configured env then [current] else []).
  { unfold Handlers.handleDownloadCard, Handlers.lift, secure_url, Spec.configured.
    destruct (env_truthy (CLOUDINARY_CLOUD_NAME env));
      destruct (env_truthy (CLOUDINARY_UPLOAD_PRESET env)); cbn [negb orb andb];
      try reflexivity.
    rewrite generatePngBlob_branches.
    unfold Spec.dispatch, Spec.via_html2canvas, Spec.via_library.
    split_answers; reflexivity. }
  assert (Hup :
    Kinds.rasterized (trace (uploadToCloudinary env current))
    = if Spec.configured env
      then match querySelector env current ".fc-idcard" with
           | Some cardElement => [cardElement]
           | None => []
           end
      else []).
  { unfold uploadToCloudinary, Spec.configured.
    destruct (env_truthy (CLOUDINARY_CLOUD_NAME env));
      destruct (env_truthy (CLOUDINARY_UPLOAD_PRESET env)); cbn [negb orb andb];
      try reflexivity.
    destruct (querySelector env current ".fc-idcard") as [cardElement|];
      [|reflexivity].
    rewrite generatePngBlob_branches.
    unfold Spec.dispatch, Spec.via_html2canvas, Spec.via_library.
    split_answers; reflexivity. }
  split; [exact Hdown|]. split; [exact Hup|].
  intros cardElement Hconf Hcard Hneq. rewrite Hdown, Hup, Hconf, Hcard.
  intros E. injection E as E. apply Hneq. now symmetry.
Qed.

Lemma captured_elements_witness :
  Kinds.rasterized
    (Kinds.base_events
       (trace (Handlers.handleDownloadCard Scenarios.happy (fun _ => Ok tt)
                 (Some Scenarios.alice) (Some Scenarios.root))))
  <> Kinds.rasterized (trace (uploadToCloudinary Scenarios.happy Scenarios.root)).
Proof.
  destruct (captured_elements Scenarios.happy (fun _ => Ok tt)
              (Some Scenarios.alice) Scenarios.root) as (_ & _ & H).
  apply (H Scenarios.cardElement); [reflexivity | reflexivity | discriminate].
Defined.

(** ** [setupEmbedMetaTag] *)

(** X21. [setupEmbedMetaTag] never rejects.  It appends either nothing or
    the two meta tags [fc:miniapp] and [fc:frame], in this order and with
    the same content, the embed of the uploaded image; it appends them
    exactly when there is a user, a card element and the upload returned
    a URL. *)
Theorem setupEmbedMetaTag_tags (env : Env) (stringify : JsVal -> string)
  (user : option DashboardUser.t) (cardRef : option Element) :
  let run := Handlers.setupEmbedMetaTag env stringify user cardRef in
  outcome run = Ok tt
  /\ filter Handlers.is_meta (trace run)
     = match user, cardRef with
       | Some _, Some current =>
           match outcome (uploadToCloudinary env current) with
           | Ok cloudinaryUrl =>
               if truthy cloudinaryUrl then
                 [ Handlers.AppendMeta "fc:miniapp"
                     (stringify (Handlers.embedData env cloudinaryUrl));
                   Handlers.AppendMeta "fc:frame"
                     (stringify (Handlers.embedData env cloudinaryUrl)) ]
               else []
           | Throw _ => []
           end
       | _, _ => []
       end.
Proof.
  cbv zeta. unfold Handlers.setupEmbedMetaTag, Handlers.lift.
  destruct user as [user|]; destruct cardRef as [current|];
    try (split; reflexivity).
  destruct (env_truthy (CLOUDINARY_CLOUD_NAME env)) eqn:E1;
    destruct (env_truthy (CLOUDINARY_UPLOAD_PRESET env)) eqn:E2;
    cbn [negb orb andb];
    try (unfold uploadToCloudinary; rewrite E1, E2; split; reflexivity).
  assert (F : forall t : list Event,
             filter Handlers.is_meta (map Handlers.Base t) = []).
  { induction t; simpl; auto. }
  destruct (uploadToCloudinary env current) as [[url|e] t]; cbn.
  - destruct (truthy url); cbn; rewrite filter_app, F; split; reflexivity.
  - rewrite filter_app, F. split; reflexivity.
Qed.

(** ** The profile updater *)

Lemma assoc_set (k k' : string) (v : JsVal) (o : Profile.UserObject) :
  assoc k (Profile.set k' v o) = if (k =? k')%string then v else assoc k o.
Proof.
  induction o as [|[k0 v0] o IH]; simpl.
  - destruct (k =? k')%string; reflexivity.
  - destruct (String.eqb_spec k' k0) as [->|Hne]; simpl.
    + destruct (k =? k0)%string; reflexivity.
    + destruct (String.eqb_spec k k0) as [->|Hne'].
      * destruct (String.eqb_spec k0 k') as [->|_]; [contradiction|reflexivity].
      * exact IH.
Qed.

(** X22. For a user that exists, the profile updater changes nothing but
    the seven profile properties: [fid], [username] and [displayName] stay
    what they were, whatever the API says, and so do [castsCount] and
    [reactionsCount]. *)
Theorem updater_keeps_identity (fid : Z) (u : JsVal) (user : Profile.UserObject)
  (k : string) :
  ~ In k Kinds.profile_keys ->
  assoc k (Profile.updater fid u (Some user)) = assoc k user.
Proof.
  intros H. unfold Profile.updater. cbn [Profile.base].
  rewrite !assoc_set.
  repeat match goal with
         | |- context [(k =? ?key)%string] =>
             destruct (String.eqb_spec k key) as [->|_];
             [exfalso; apply H; unfold Kinds.profile_keys; simpl; tauto|]
         end.
  reflexivity.
Qed.

Lemma updater_keeps_identity_witness :
  assoc "username" (Profile.updater 12345 Cases.apiUser (Some Cases.storedUser))
  = JsStr "testuser"
  /\ assoc "reactionsCount"
       (Profile.updater 12345 Cases.apiUser (Some Cases.storedUser))
     = JsNum 15.
Proof.
  split.
  - rewrite (updater_keeps_identity 12345 Cases.apiUser Cases.storedUser "username");
      [reflexivity|].
    unfold Kinds.profile_keys. simpl. intuition discriminate.
  - rewrite (updater_keeps_identity 12345 Cases.apiUser Cases.storedUser
               "reactionsCount"); [reflexivity|].
    unfold Kinds.profile_keys. simpl. intuition discriminate.
Defined.

(** X23. The location of a profile needs a country: with a city and a
    country it is ["city, country"], with a country alone the country,
    and with a city alone there is none. *)
Theorem location_needs_country (u : JsVal) :
  let address := Spec.field ["profile"; "location"; "address"] u in
  let city := opt_prop "city" address in
  let country := opt_prop "country" address in
  nullish u = false ->
  Profile.location u
  = if truthy country then
      if truthy city then JsStr (toString city ++ ", " ++ toString country)
      else country
    else JsUndefined.
Proof.
  cbv zeta. intros Hu. unfold Profile.location, Spec.field. cbn [fold_left].
  rewrite (opt_prop_defined "profile" u Hu).
  set (address := opt_prop "address" (opt_prop "location" (prop "profile" u))).
  unfold Profile.and, or.
  destruct (truthy (opt_prop "city" address)) eqn:Hc.
  - destruct (truthy (opt_prop "country" address)) eqn:Hk; [|reflexivity].
    assert (Ha : nullish address = false).
    { destruct address; try reflexivity; discriminate Hc. }
    now rewrite !(opt_prop_defined _ address Ha).
  - rewrite Hc. destruct (truthy (opt_prop "country" address)); reflexivity.
Qed.

Lemma location_needs_country_witness :
  Profile.location Cases.apiUser = JsUndefined.
Proof.
  rewrite (location_needs_country Cases.apiUser eq_refl). reflexivity.
Defined.

Lemma set_present (k : string) (v : JsVal) (o : Profile.UserObject) :
  assoc k o = v -> In k (map fst o) -> Profile.set k v o = o.
Proof.
  induction o as [|[k0 v0] o IH]; simpl; [contradiction|].
  destruct (String.eqb_spec k k0) as [->|Hne].
  - now intros ->.
  - intros Hv [E|Hin]; [congruence|]. f_equal. now apply IH.
Qed.

Lemma keys_set (k k' : string) (v : JsVal) (o : Profile.UserObject) :
  In k (map fst (Profile.set k' v o)) <-> k = k' \/ In k (map fst o).
Proof.
  induction o as [|[k0 v0] o IH]; simpl.
  - intuition congruence.
  - destruct (String.eqb_spec k' k0) as [->|Hne]; simpl.
    + intuition congruence.
    + rewrite IH. intuition congruence.
Qed.

Lemma coalesce_twice (a b : JsVal) : coalesce a (coalesce a b) = coalesce a b.
Proof. unfold coalesce. destruct (nullish a) eqn:E; rewrite ?E; reflexivity. Qed.

(** Setting again the seven values an object was built with changes
    nothing. *)
Lemma set_seven_again (b : Profile.UserObject) (v1 v2 v3 v4 v5 v6 v7 : JsVal) :
  let r :=
    Profile.set "neynarScore" v7
      (Profile.set "primaryAddress" v6
         (Profile.set "location" v5
            (Profile.set "bio" v4
               (Profile.set "followingCount" v3
                  (Profile.set "followersCount" v2
                     (Profile.set "avatarUrl" v1 b)))))) in
  Profile.set "neynarScore" v7
    (Profile.set "primaryAddress" v6
       (Profile.set "location" v5
          (Profile.set "bio" v4
             (Profile.set "followingCount" v3
                (Profile.set "followersCount" v2
                   (Profile.set "avatarUrl" v1 r)))))) = r.
Proof.
  intros r.
  assert (S : forall k v, assoc k r = v -> In k (map fst r) ->
                          Profile.set k v r = r)
    by (intros; now apply set_present).
  rewrite (S "avatarUrl" v1), (S "followersCount" v2), (S "followingCount" v3),
    (S "bio" v4), (S "location" v5), (S "primaryAddress" v6),
    (S "neynarScore" v7);
    try reflexivity;
    try (unfold r; rewrite !assoc_set; reflexivity);
    unfold r; rewrite !keys_set; tauto.
Qed.

(** X24. Applying the profile updater a second time with the same API user
    changes nothing: a refresh that brings no new data leaves the user as
    it is. *)
Theorem updater_idempotent (fid : Z) (u : JsVal)
  (prev : option Profile.UserObject) :
  Profile.updater fid u (Some (Profile.updater fid u prev))
  = Profile.updater fid u prev.
Proof.
  assert (V : forall k,
             In k Kinds.profile_keys ->
             assoc k (Profile.updater fid u prev)
             = assoc k
                 [ ("avatarUrl",
                    coalesce (prop "pfp_url" u)
                      (assoc "avatarUrl" (Profile.base fid u prev)));
                   ("followersCount",
                    coalesce (prop "follower_count" u)
                      (assoc "followersCount" (Profile.base fid u prev)));
                   ("followingCount",
                    coalesce (prop "following_count" u)
                      (assoc "followingCount" (Profile.base fid u prev)));
                   ("bio",
                    coalesce (opt_prop "text" (opt_prop "bio" (prop "profile" u)))
                      (assoc "bio" (Profile.base fid u prev)));
                   ("location",
                    coalesce (Profile.location u)
                      (assoc "location" (Profile.base fid u prev)));
                   ("primaryAddress",
                    coalesce (Profile.primaryEth u)
                      (assoc "primaryAddress" (Profile.base fid u prev)));
                   ("neynarScore",
                    if Profile.is_number
                         (opt_prop "neynar_user_score" (prop "experimental" u))
                    then prop "neynar_user_score" (prop "experimental" u)
                    else assoc "neynarScore" (Profile.base fid u prev)) ]).
  { intros k Hk. unfold Profile.updater. rewrite !assoc_set.
    unfold Kinds.profile_keys in Hk. simpl in Hk.
    destruct Hk as [<-|[<-|[<-|[<-|[<-|[<-|[<-|[]]]]]]]]; reflexivity. }
  unfold Profile.updater at 1. cbn [Profile.base].
  rewrite !V by (unfold Kinds.profile_keys; simpl; tauto).
  cbn [assoc String.eqb Ascii.eqb Bool.eqb].
  rewrite !coalesce_twice.
  destruct (Profile.is_number (opt_prop "neynar_user_score" (prop "experimental" u)))
    eqn:E;
    unfold Profile.updater; rewrite E; apply set_seven_again.
Qed.

(** ** The length of a formatted address *)

Lemma length_append (a b : string) :
  String.length (a ++ b) = (String.length a + String.length b)%nat.
Proof. induction a; simpl; congruence. Qed.

Lemma length_string_of_list_ascii (l : list ascii) :
  String.length (string_of_list_ascii l) = List.length l.
Proof. induction l; simpl; congruence. Qed.

(** X25. A formatted address has the first [min 6 n] and the last
    [min 4 n] characters of an address of [n] characters around the three
    dots: 13 characters for every address of 6 characters or more, and
    for a shorter one more characters than the address itself. *)
Theorem formatAddress_length (address : string) :
  address <> "" ->
  String.length (Dashboard.formatAddress (Some address))
  = (Nat.min 6 (String.length address) + 3
     + Nat.min 4 (String.length address))%nat
  /\ (String.length (Dashboard.formatAddress (Some address)) <= 13)%nat
  /\ ((String.length address < 6)%nat ->
      (String.length address
       < String.length (Dashboard.formatAddress (Some address)))%nat).
Proof.
  intros Hne.
  assert (L : String.length (Dashboard.formatAddress (Some address))
              = (Nat.min 6 (String.length address) + 3
                 + Nat.min 4 (String.length address))%nat).
  { unfold Dashboard.formatAddress.
    destruct (String.eqb_spec address "") as [E|_]; [contradiction|].
    rewrite (slice_prefix address 6) by lia.
    change (slice address (-4) None) with (slice address (Z.opp 4) None).
    rewrite (slice_suffix address 4) by lia.
    rewrite !length_append. unfold Spec.first_chars, Spec.last_chars.
    rewrite !length_string_of_list_ascii, length_firstn, length_skipn,
      length_list_ascii_of_string.
    change (Z.to_nat 6) with 6%nat. change (Z.to_nat 4) with 4%nat.
    simpl String.length. lia. }
  rewrite L. repeat split; lia.
Qed.

Lemma formatAddress_length_witness :
  String.length
    (Dashboard.formatAddress (Some "0x1234567890abcdef1234567890abcdef12345678"))
  = 13%nat.
Proof.
  destruct (formatAddress_length "0x1234567890abcdef1234567890abcdef12345678")
    as [H _]; [discriminate|].
  rewrite H. reflexivity.
Defined.

(** ** A cast without text or date, from the response to the list *)

(** X26. A cast the response gives no text (or an empty one) is stored
    with the empty text and listed as ['(no text)']; a cast without a
    timestamp is listed with an empty date, without asking [Date] for
    one. *)
Theorem cast_without_text_or_date (toLocaleString : JsVal -> string)
  (c : JsVal) (cast : RecentCast.t) :
  processCast c = Ok cast ->
  (truthy (prop "text" c) = false ->
   Dashboard.ActivityItem.text (Dashboard.castItem toLocaleString cast)
   = JsStr "(no text)")
  /\ (truthy (prop "timestamp" c) = false ->
      hd_error
        (Dashboard.ActivityItem.meta (Dashboard.castItem toLocaleString cast))
      = Some (JsStr ""))
  /\ Dashboard.ActivityItem.key (Dashboard.castItem toLocaleString cast)
     = Some (prop "hash" c).
Proof.
  unfold processCast. destruct (nullish c); [discriminate|].
  intros H; injection H as <-. cbn. repeat split.
  - intros Ht. unfold coalesce, or.
    destruct (prop "text" c) as [| |b|n| |s| |]; cbn in *;
      try discriminate Ht; try reflexivity.
    + now rewrite Ht.
    + now rewrite Ht.
    + now rewrite Ht.
  - intros Ht. unfold Dashboard.formatTimestamp. now rewrite Ht.
Qed.

Lemma cast_without_text_or_date_witness :
  exists cast,
    processCast (JsObj [("hash", JsStr "0xc3")]) = Ok cast
    /\ Dashboard.ActivityItem.text (Dashboard.castItem (fun _ => "May 3") cast)
       = JsStr "(no text)".
Proof.
  destruct (processCast (JsObj [("hash", JsStr "0xc3")])) as [cast|e] eqn:E;
    [|discriminate E].
  exists cast. split; [reflexivity|].
  destruct (cast_without_text_or_date (fun _ => "May 3")
              (JsObj [("hash", JsStr "0xc3")]) cast E) as [H _].
  apply H. reflexivity.
Defined.
